(** * Availability search and schedule services of the transport backend

    Shallow embedding of [app/services/transport.py], the models of
    [app/models/transport.py] and the validators of
    [app/schemas/transport.py].  Database tables are lists of rows in
    storage order; a query is a list comprehension over them.  Instants are
    seconds since the epoch (UTC) and prices and ratings are exact numbers,
    all as [Z]. *)

From Stdlib Require Import List ZArith Bool Btauto Lia String Sorted Permutation.
Import ListNotations.
Open Scope string_scope.
Open Scope Z_scope.

(** ** Exceptions and the error monad *)

Inductive exc :=
| HTTPException (status_code : Z) (detail : string)
| IntegrityError                      (** database constraint rejected a commit *)
| MultipleResultsFound                (** [scalar_one_or_none] saw several rows *)
| AttributeError                      (** attribute read on [None] *)
| TypeError (msg : string)
| KeyError (key : string)
| ValueError (msg : string)
| ValidationError (title : string) (line_errors : list (string * string)).

Inductive result (A : Type) :=
| Ok (a : A)
| Err (e : exc).
Arguments Ok {A} a.
Arguments Err {A} e.

Definition bind {A B} (m : result A) (k : A -> result B) : result B :=
  match m with
  | Ok a => k a
  | Err e => Err e
  end.

Notation "'let*' x := m 'in' k" := (bind m (fun x => k))
  (at level 200, x name, m at level 100, k at level 200).

(** [Result.scalar_one_or_none()]: no row, one row, or an error. *)
Definition scalar_one_or_none {A} (rows : list A) : result (option A) :=
  match rows with
  | [] => Ok None
  | [r] => Ok (Some r)
  | _ :: _ :: _ => Err MultipleResultsFound
  end.

(** [Result.first()]. *)
Definition first {A} (rows : list A) : option A :=
  match rows with
  | [] => None
  | r :: _ => Some r
  end.

(** ** Models ([app/models]) *)

Module City.
Record t := mk { id : Z }.
End City.

Module Carrier.
Record t := mk { id : Z; user_id : Z }.
End Carrier.

Module Transport.
Record t := mk {
  id : Z;
  brand : string;
  model : string;
  n_seat : Z;
  photo : string;
  luggage : bool;
  wifi : bool;
  tv : bool;
  air_conditioning : bool;
  toilet : bool;
  rating : Z;
  carrier_id : Z
}.
End Transport.

Module Route.
Record t := mk { id : Z; id_from : Z; id_to : Z }.
End Route.

Module TransportRoute.
Record t := mk {
  id : Z;
  min_price : Z;
  max_price : Z;
  route_id : Z;
  transport_id : Z
}.
End TransportRoute.

Inductive ScheduleReasonEnum := TECHNICAL | OTHER.

Module Schedule.
Record t := mk {
  id : Z;
  start_time : Z;
  end_time : Z;
  reason : ScheduleReasonEnum;
  id_transport : Z
}.
End Schedule.

(** The database: one list per table, in storage order.  [enforce_fk]
    records whether the backend checks foreign keys on commit (the session
    module choosing the backend is not part of the repository). *)
Record DB := mkDB {
  cities : list City.t;
  carriers : list Carrier.t;
  transports : list Transport.t;
  routes : list Route.t;
  transport_routes : list TransportRoute.t;
  schedules : list Schedule.t;
  enforce_fk : bool
}.

(** ** Schemas ([app/schemas/transport.py]) *)

Inductive SortBy := sort_rating | sort_price.
Inductive SortOrder := order_asc | order_desc.

Module TransportFilter.
Record t := mk {
  id_from : Z;
  id_to : Z;
  start_time : Z;
  end_time : Z;
  n_seat : Z;
  min_price : Z;
  max_price : Z;
  luggage : option bool;
  wifi : option bool;
  tv : option bool;
  air_conditioning : option bool;
  toilet : option bool;
  sort_by : option SortBy;
  sort_order : option SortOrder
}.
End TransportFilter.

Module TransportFilterResponse.
Record t := mk {
  id : Z;
  carrier_id : Z;
  brand : string;
  model : string;
  n_seat : Z;
  luggage : bool;
  wifi : bool;
  tv : bool;
  air_conditioning : bool;
  toilet : bool;
  photo : string;
  rating : Z;
  min_price : Z;
  max_price : Z
}.
End TransportFilterResponse.

Definition to_response (t : Transport.t) (tr : TransportRoute.t)
  : TransportFilterResponse.t :=
  TransportFilterResponse.mk (Transport.id t) (Transport.carrier_id t)
    (Transport.brand t) (Transport.model t) (Transport.n_seat t)
    (Transport.luggage t) (Transport.wifi t) (Transport.tv t)
    (Transport.air_conditioning t) (Transport.toilet t) (Transport.photo t)
    (Transport.rating t) (TransportRoute.min_price tr)
    (TransportRoute.max_price tr).

(** ** [filter_transports_service] *)

(** [SORT_FIELD_MAP.get(filters.sort_by, Transport.rating)]: an absent
    [sort_by] falls back to the rating. *)
Definition sort_field (sort_by : option SortBy)
  (row : Transport.t * TransportRoute.t) : Z :=
  match sort_by with
  | Some sort_price => TransportRoute.min_price (snd row)
  | _ => Transport.rating (fst row)
  end.

(** [desc if filters.sort_order == "desc" else asc]. *)
Definition is_desc (sort_order : option SortOrder) : bool :=
  match sort_order with
  | Some order_desc => true
  | _ => false
  end.

(** [ORDER BY key ASC|DESC] over the rows as the join produces them.  The
    query names no second key, so rows tied on the key keep the order the
    database yields them in; the sort is a stable insertion sort. *)
Fixpoint insert_by {A} (before : A -> A -> bool) (x : A) (l : list A)
  : list A :=
  match l with
  | [] => [x]
  | y :: l' => if before x y then x :: y :: l' else y :: insert_by before x l'
  end.

Definition sort_by_key {A} (before : A -> A -> bool) (l : list A) : list A :=
  fold_right (insert_by before) [] l.

Definition order_before (f : TransportFilter.t)
  (a b : Transport.t * TransportRoute.t) : bool :=
  let key := sort_field (TransportFilter.sort_by f) in
  if is_desc (TransportFilter.sort_order f) then key b <=? key a
  else key a <=? key b.

(** The subquery [subq]: schedules overlapping the requested window,
    [~((end_time <= filters.start_time) | (start_time >= filters.end_time))]. *)
Definition overlaps_window (f : TransportFilter.t) (s : Schedule.t) : bool :=
  negb ((Schedule.end_time s <=? TransportFilter.start_time f)
        || (Schedule.start_time s >=? TransportFilter.end_time f)).

Definition busy_transports (db : DB) (f : TransportFilter.t) : list Z :=
  map Schedule.id_transport (filter (overlaps_window f) (schedules db)).

(** An optional amenity filter: no constraint when absent, equality otherwise. *)
Definition optional_eq (wanted : option bool) (has : bool) : bool :=
  match wanted with
  | None => true
  | Some b => Bool.eqb has b
  end.

(** [select(Transport, TransportRoute).join(Transport.transport_routes)
    .join(TransportRoute.route)]: inner joins; the route is kept for the
    where clause. *)
Definition joined_rows (db : DB)
  : list (Transport.t * TransportRoute.t * Route.t) :=
  flat_map (fun t =>
    flat_map (fun tr =>
      if TransportRoute.transport_id tr =? Transport.id t then
        map (fun r => (t, tr, r))
          (filter (fun r => Route.id r =? TransportRoute.route_id tr) (routes db))
      else [])
      (transport_routes db))
    (transports db).

Definition where_clause (db : DB) (f : TransportFilter.t)
  (row : Transport.t * TransportRoute.t * Route.t) : bool :=
  let '(t, tr, r) := row in
  (Route.id_from r =? TransportFilter.id_from f)
  && (Route.id_to r =? TransportFilter.id_to f)
  && (Transport.n_seat t >=? TransportFilter.n_seat f)
  && (TransportRoute.min_price tr >=? TransportFilter.min_price f)
  && (TransportRoute.max_price tr <=? TransportFilter.max_price f)
  && negb (existsb (Z.eqb (Transport.id t)) (busy_transports db f))
  && optional_eq (TransportFilter.luggage f) (Transport.luggage t)
  && optional_eq (TransportFilter.wifi f) (Transport.wifi t)
  && optional_eq (TransportFilter.tv f) (Transport.tv t)
  && optional_eq (TransportFilter.air_conditioning f)
       (Transport.air_conditioning t)
  && optional_eq (TransportFilter.toilet f) (Transport.toilet t).

(** The rows the query selects, before ordering.  The [joinedload] options
    only eager-load relationships; [result.unique()] collapses the duplicate
    rows they introduce, which this row model never creates. *)
Definition selected_rows (db : DB) (f : TransportFilter.t)
  : list (Transport.t * TransportRoute.t) :=
  map (fun '(t, tr, _) => (t, tr)) (filter (where_clause db f) (joined_rows db)).

Definition ordered_rows (db : DB) (f : TransportFilter.t)
  : list (Transport.t * TransportRoute.t) :=
  sort_by_key (order_before f) (selected_rows db f).

Definition no_transports_found : exc :=
  HTTPException 404 "No transports found matching the filters".

Definition filter_transports_service (f : TransportFilter.t) (db : DB)
  : result (list TransportFilterResponse.t) :=
  match ordered_rows db f with
  | [] => Err no_transports_found
  | rows => Ok (map (fun '(t, tr) => to_response t tr) rows)
  end.

(** What a caller sees of a search: the responses, none on an error. *)
Definition search_responses (db : DB) (f : TransportFilter.t)
  : list TransportFilterResponse.t :=
  match filter_transports_service f db with
  | Ok l => l
  | Err _ => []
  end.

Definition search_ids (db : DB) (f : TransportFilter.t) : list Z :=
  map TransportFilterResponse.id (search_responses db f).

(** ** [get_transport_by_id_service] *)

(** [select(Transport, TransportRoute).join(Transport.transport_routes)
    .where(Transport.id == transport_id)], then [result.first()]. *)
Definition transport_with_routes (transport_id : Z) (db : DB)
  : list (Transport.t * TransportRoute.t) :=
  flat_map (fun t =>
    if Transport.id t =? transport_id then
      map (fun tr => (t, tr))
        (filter (fun tr => TransportRoute.transport_id tr =? Transport.id t)
           (transport_routes db))
    else [])
    (transports db).

Definition transport_not_found : exc := HTTPException 404 "Transport not found".

Definition get_transport_by_id_service (transport_id : Z) (db : DB)
  : result TransportFilterResponse.t :=
  match first (transport_with_routes transport_id db) with
  | None => Err transport_not_found
  | Some (t, tr) => Ok (to_response t tr)
  end.

(** ** Ownership check and identifiers *)

(** [get_transport_and_validate_user]; the user is given by its id.  The
    carrier is loaded through [Transport.carrier]; a dangling reference
    would make [transport.carrier.user_id] fail on [None]. *)
Definition get_transport_and_validate_user (transport_id : Z)
  (current_user : Z) (db : DB) : result Transport.t :=
  let* transport :=
    scalar_one_or_none
      (filter (fun t => Transport.id t =? transport_id) (transports db)) in
  match transport with
  | None => Err transport_not_found
  | Some t =>
      match find (fun c => Carrier.id c =? Transport.carrier_id t) (carriers db) with
      | None => Err AttributeError
      | Some c =>
          if negb (Carrier.user_id c =? current_user)
          then Err (HTTPException 403 "Access denied")
          else Ok t
      end
  end.

(** Primary keys are assigned by the database sequence: one past the
    largest id in use. *)
Definition next_id (ids : list Z) : Z := 1 + fold_right Z.max 0 ids.

Definition with_routes (db : DB) (l : list Route.t) : DB :=
  mkDB (cities db) (carriers db) (transports db) l (transport_routes db)
    (schedules db) (enforce_fk db).

Definition with_transport_routes (db : DB) (l : list TransportRoute.t) : DB :=
  mkDB (cities db) (carriers db) (transports db) (routes db) l
    (schedules db) (enforce_fk db).

Definition with_schedules (db : DB) (l : list Schedule.t) : DB :=
  mkDB (cities db) (carriers db) (transports db) (routes db)
    (transport_routes db) l (enforce_fk db).

(** ** [add_transport_schedule_service] *)

Module ScheduleCreate.
Record t := mk {
  transport_id : Z;
  start_time : Z;
  end_time : Z;
  reason : ScheduleReasonEnum
}.
End ScheduleCreate.

(** [ScheduleCreate.validate_schedule], run when the request is parsed. *)
Definition validate_schedule (now : Z) (model : ScheduleCreate.t)
  : result ScheduleCreate.t :=
  if ScheduleCreate.start_time model <? now then
    Err (ValueError "Start time cannot be in the past")
  else if ScheduleCreate.end_time model <=? ScheduleCreate.start_time model then
    Err (ValueError "End time must be after start time")
  else Ok model.

Definition schedule_exists_exc : exc :=
  HTTPException 400 "Schedule with these times already exists for this transport".

(** The duplicate query: same transport, same start, same end. *)
Definition same_times (payload : ScheduleCreate.t) (s : Schedule.t) : bool :=
  (Schedule.id_transport s =? ScheduleCreate.transport_id payload)
  && (Schedule.start_time s =? ScheduleCreate.start_time payload)
  && (Schedule.end_time s =? ScheduleCreate.end_time payload).

Definition add_transport_schedule_service (payload : ScheduleCreate.t)
  (current_user : Z) (db : DB) : result (Schedule.t * DB) :=
  let* transport :=
    get_transport_and_validate_user (ScheduleCreate.transport_id payload)
      current_user db in
  let schedule :=
    Schedule.mk (next_id (map Schedule.id (schedules db)))
      (ScheduleCreate.start_time payload) (ScheduleCreate.end_time payload)
      (ScheduleCreate.reason payload) (Transport.id transport) in
  let* existing := scalar_one_or_none (filter (same_times payload) (schedules db)) in
  match existing with
  | Some _ => Err schedule_exists_exc
  | None => Ok (schedule, with_schedules db (schedules db ++ [schedule]))
  end.

(** The request path of [POST] schedule: the schema validator, then the
    service. *)
Definition add_schedule_request (now : Z) (current_user : Z)
  (payload : ScheduleCreate.t) (db : DB) : result (Schedule.t * DB) :=
  let* payload := validate_schedule now payload in
  add_transport_schedule_service payload current_user db.

(** ** Route creation inside [add_route_to_transport_service] *)

(** Committing a new route row: the [uq_route_from_to] unique constraint,
    and the foreign keys [routes.id_from] and [routes.id_to] to [cities.id]
    where the backend enforces them.  A rejected commit raises and leaves
    the store as it was. *)
Definition city_exists (db : DB) (city_id : Z) : bool :=
  existsb (fun c => City.id c =? city_id) (cities db).

Definition commit_route (r : Route.t) (db : DB) : result DB :=
  if existsb (fun r' => (Route.id_from r' =? Route.id_from r)
                        && (Route.id_to r' =? Route.id_to r)) (routes db)
  then Err IntegrityError
  else if enforce_fk db
          && negb (city_exists db (Route.id_from r) && city_exists db (Route.id_to r))
  then Err IntegrityError
  else Ok (with_routes db (routes db ++ [r])).

Definition route_matches (id_from id_to : Z) (r : Route.t) : bool :=
  (Route.id_from r =? id_from) && (Route.id_to r =? id_to).

(** Lines 489-500: find the route by its end points, create it if absent. *)
Definition get_or_create_route (id_from id_to : Z) (db : DB)
  : result (Route.t * DB) :=
  let* route := scalar_one_or_none (filter (route_matches id_from id_to) (routes db)) in
  match route with
  | Some r => Ok (r, db)
  | None =>
      let r := Route.mk (next_id (map Route.id (routes db))) id_from id_to in
      let* db' := commit_route r db in
      Ok (r, db')
  end.

Definition route_assigned_exc : exc :=
  HTTPException 400 "This route is already assigned to the transport".

(** The whole service.  The route is committed on its own before the
    assignment is checked, so the store is returned with every outcome. *)
Definition add_route_to_transport_service (transport_id id_from id_to : Z)
  (min_price max_price : Z) (current_user : Z) (db : DB)
  : result TransportRoute.t * DB :=
  match get_transport_and_validate_user transport_id current_user db with
  | Err e => (Err e, db)
  | Ok transport =>
      match get_or_create_route id_from id_to db with
      | Err e => (Err e, db)
      | Ok (route, db1) =>
          match scalar_one_or_none
                  (filter (fun tr => (TransportRoute.transport_id tr =? Transport.id transport)
                                     && (TransportRoute.route_id tr =? Route.id route))
                     (transport_routes db1)) with
          | Err e => (Err e, db1)
          | Ok (Some _) => (Err route_assigned_exc, db1)
          | Ok None =>
              let transport_route :=
                TransportRoute.mk (next_id (map TransportRoute.id (transport_routes db1)))
                  min_price max_price (Route.id route) (Transport.id transport) in
              (Ok transport_route,
               with_transport_routes db1 (transport_routes db1 ++ [transport_route]))
          end
      end
  end.

(** ** Listing and removing assignments and schedules *)

Definition no_routes_exc : exc :=
  HTTPException 404 "No routes found for this transport".

(** [get_transport_routes_service]. *)
Definition get_transport_routes_service (transport_id current_user : Z) (db : DB)
  : result (list TransportRoute.t) :=
  let* transport := get_transport_and_validate_user transport_id current_user db in
  match filter (fun tr => TransportRoute.transport_id tr =? Transport.id transport)
          (transport_routes db) with
  | [] => Err no_routes_exc
  | routes => Ok routes
  end.

Definition route_not_found_exc : exc :=
  HTTPException 404 "Route not found for this transport".

(** [delete_transport_route_service]; [db.delete] removes the row by its
    primary key.  The returned dict is the pair (message, route_id). *)
Definition delete_transport_route_service (transport_id route_id current_user : Z)
  (db : DB) : result ((string * Z) * DB) :=
  let* transport := get_transport_and_validate_user transport_id current_user db in
  let* transport_route :=
    scalar_one_or_none
      (filter (fun tr => (TransportRoute.transport_id tr =? Transport.id transport)
                         && (TransportRoute.route_id tr =? route_id))
         (transport_routes db)) in
  match transport_route with
  | None => Err route_not_found_exc
  | Some x =>
      Ok (("Route successfully deleted", route_id),
          with_transport_routes db
            (filter (fun tr => negb (TransportRoute.id tr =? TransportRoute.id x))
               (transport_routes db)))
  end.

Definition no_schedules_exc : exc :=
  HTTPException 404 "No schedules found for this transport".

(** [get_transport_schedules_service]. *)
Definition get_transport_schedules_service (transport_id current_user : Z) (db : DB)
  : result (list Schedule.t) :=
  let* transport := get_transport_and_validate_user transport_id current_user db in
  match filter (fun s => Schedule.id_transport s =? Transport.id transport)
          (schedules db) with
  | [] => Err no_schedules_exc
  | schedules => Ok schedules
  end.

Definition schedule_not_found_exc : exc := HTTPException 404 "Schedule not found".

(** [delete_transport_schedules_service]: look the schedule up, check the
    ownership of its transport, delete it by primary key. *)
Definition delete_transport_schedules_service (schedule_id current_user : Z)
  (db : DB) : result ((string * Z) * DB) :=
  let* schedule :=
    scalar_one_or_none (filter (fun s => Schedule.id s =? schedule_id) (schedules db)) in
  match schedule with
  | None => Err schedule_not_found_exc
  | Some s =>
      let* _ := get_transport_and_validate_user (Schedule.id_transport s)
                  current_user db in
      Ok (("Schedule successfully deleted", schedule_id),
          with_schedules db
            (filter (fun s' => negb (Schedule.id s' =? Schedule.id s)) (schedules db)))
  end.

(** ** [TransportFilter.validate_times_and_prices] *)

(** The Python values handed to pydantic-core. *)
#[warnings="-register-all"]
Inductive pyobj :=
| PyStr (s : string)
| PyTuple (a b : pyobj)
| PyDict (items : list (string * pyobj)).

Fixpoint dict_get (key : string) (items : list (string * pyobj)) : option pyobj :=
  match items with
  | [] => None
  | (k, v) :: rest => if String.eqb k key then Some v else dict_get key rest
  end.

Definition py_str (o : pyobj) : string :=
  match o with
  | PyStr s => s
  | _ => EmptyString
  end.

(** pydantic-core's [ValidationError.from_exception_data(title,
    line_errors)]: each line error must be an [InitErrorDetails] dict with
    a ["type"] entry; any other object is refused while the error is being
    built, and that exception is what the [raise] statement propagates. *)
Definition line_error (o : pyobj) : result (string * string) :=
  match o with
  | PyDict items =>
      match dict_get "type" items with
      | None => Err (KeyError "type")
      | Some ty =>
          Ok (py_str ty, match dict_get "loc" items with
                         | Some loc => py_str loc
                         | None => EmptyString
                         end)
      end
  | PyTuple _ _ => Err (TypeError "'tuple' object cannot be converted to 'PyDict'")
  | PyStr _ => Err (TypeError "'str' object cannot be converted to 'PyDict'")
  end.

Fixpoint line_errors_of (l : list pyobj) : result (list (string * string)) :=
  match l with
  | [] => Ok []
  | o :: rest =>
      let* le := line_error o in
      let* les := line_errors_of rest in
      Ok (le :: les)
  end.

Definition from_exception_data (title : string) (line_errors : list pyobj) : exc :=
  match line_errors_of line_errors with
  | Ok les => ValidationError title les
  | Err e => e
  end.

(** The [errors] dict, in insertion order (its keys are distinct). *)
Definition filter_errors (now : Z) (f : TransportFilter.t) : list (string * string) :=
  (if TransportFilter.start_time f <? now
   then [("start_time", "Must be in the future")] else [])
  ++ (if TransportFilter.end_time f <=? TransportFilter.start_time f
      then [("end_time", "Must be after start_time")] else [])
  ++ (if TransportFilter.max_price f <? TransportFilter.min_price f
      then [("max_price", "Must be greater than or equal to min_price")] else []).

Definition validate_times_and_prices (now : Z) (f : TransportFilter.t)
  : result TransportFilter.t :=
  match filter_errors now f with
  | [] => Ok f
  | errors =>
      Err (from_exception_data "TransportFilter"
             (map (fun '(k, v) => PyTuple (PyStr k) (PyStr v)) errors))
  end.

(** ** Parts of the where clause *)

(** [~Transport.id.in_(select(subq.c.id_transport))] for a transport id. *)
Definition not_busy (db : DB) (f : TransportFilter.t) (transport_id : Z) : bool :=
  negb (existsb (Z.eqb transport_id) (busy_transports db f)).

Definition price_in_bounds (f : TransportFilter.t) (tr : TransportRoute.t) : bool :=
  (TransportRoute.min_price tr >=? TransportFilter.min_price f)
  && (TransportRoute.max_price tr <=? TransportFilter.max_price f).

(** Every condition of the where clause but the busy check. *)
Definition where_but_busy (f : TransportFilter.t)
  (row : Transport.t * TransportRoute.t * Route.t) : bool :=
  let '(t, tr, r) := row in
  (Route.id_from r =? TransportFilter.id_from f)
  && (Route.id_to r =? TransportFilter.id_to f)
  && (Transport.n_seat t >=? TransportFilter.n_seat f)
  && price_in_bounds f tr
  && optional_eq (TransportFilter.luggage f) (Transport.luggage t)
  && optional_eq (TransportFilter.wifi f) (Transport.wifi t)
  && optional_eq (TransportFilter.tv f) (Transport.tv t)
  && optional_eq (TransportFilter.air_conditioning f)
       (Transport.air_conditioning t)
  && optional_eq (TransportFilter.toilet f) (Transport.toilet t).

(** Every condition of the where clause but the price bounds. *)
Definition where_but_price (db : DB) (f : TransportFilter.t)
  (row : Transport.t * TransportRoute.t * Route.t) : bool :=
  let '(t, tr, r) := row in
  (Route.id_from r =? TransportFilter.id_from f)
  && (Route.id_to r =? TransportFilter.id_to f)
  && (Transport.n_seat t >=? TransportFilter.n_seat f)
  && not_busy db f (Transport.id t)
  && optional_eq (TransportFilter.luggage f) (Transport.luggage t)
  && optional_eq (TransportFilter.wifi f) (Transport.wifi t)
  && optional_eq (TransportFilter.tv f) (Transport.tv t)
  && optional_eq (TransportFilter.air_conditioning f)
       (Transport.air_conditioning t)
  && optional_eq (TransportFilter.toilet f) (Transport.toilet t).

(** The order the search promises on responses, read off their fields. *)
Definition response_key (sort_by : option SortBy)
  (x : TransportFilterResponse.t) : Z :=
  match sort_by with
  | Some sort_price => TransportFilterResponse.min_price x
  | _ => TransportFilterResponse.rating x
  end.

Definition response_before (f : TransportFilter.t)
  (a b : TransportFilterResponse.t) : Prop :=
  if is_desc (TransportFilter.sort_order f)
  then response_key (TransportFilter.sort_by f) b
       <= response_key (TransportFilter.sort_by f) a
  else response_key (TransportFilter.sort_by f) a
       <= response_key (TransportFilter.sort_by f) b.

(** The store without the transport of the given id. *)
Definition without_transport (db : DB) (transport_id : Z) : DB :=
  mkDB (cities db) (carriers db)
    (filter (fun t => negb (Transport.id t =? transport_id)) (transports db))
    (routes db) (transport_routes db) (schedules db) (enforce_fk db).

(** The [existing] query of [add_route_to_transport_service]. *)
Definition assignment_matches (transport_id route_id : Z) (tr : TransportRoute.t)
  : bool :=
  (TransportRoute.transport_id tr =? transport_id)
  && (TransportRoute.route_id tr =? route_id).

(** ** Sample stores *)

Definition mk_transport (id rating : Z) (wifi : bool) : Transport.t :=
  Transport.mk id "Mercedes" "Sprinter" 40 "transport_photos/default_bus.jpg"
    false wifi false false false rating 1.

(** Spec section 8's scenario: vehicle 1 (40 seats, wifi) on route 1->2 with
    band [100,300], busy over [08:00,10:00) of 2025-06-01. *)
Definition t_0800 : Z := 1748764800.
Definition t_0900 : Z := t_0800 + 3600.
Definition t_1000 : Z := t_0800 + 7200.
Definition t_1100 : Z := t_0800 + 10800.
Definition t_1200 : Z := t_0800 + 14400.

(** One day before spec section 8's scenario. *)
Definition day_before : Z := t_0800 - 86400.

Definition scenario_db : DB :=
  mkDB [City.mk 1; City.mk 2] [Carrier.mk 1 7] [mk_transport 1 5 true]
    [Route.mk 1 1 2] [TransportRoute.mk 1 100 300 1 1]
    [Schedule.mk 1 t_0800 t_1000 TECHNICAL 1] true.

Definition scenario_filter (start end_ : Z) : TransportFilter.t :=
  TransportFilter.mk 1 2 start end_ 20 50 350 None (Some true) None None None
    (Some sort_rating) (Some order_desc).

(** The same window searched in the opposite direction. *)
Definition reverse_filter : TransportFilter.t :=
  TransportFilter.mk 2 1 t_1000 t_1200 20 50 350 None None None None None
    None None.

(** ** Further sample stores *)

(** Two vehicles tied on rating, stored with the larger id first. *)
Definition tie_db : DB :=
  mkDB [City.mk 1; City.mk 2] [Carrier.mk 1 7]
    [mk_transport 2 4 true; mk_transport 1 4 true]
    [Route.mk 1 1 2]
    [TransportRoute.mk 1 100 300 1 2; TransportRoute.mk 2 100 300 1 1]
    [] true.

(** Vehicle 3 is registered but serves no route. *)
Definition no_route_db : DB :=
  mkDB [City.mk 1; City.mk 2] [Carrier.mk 1 7]
    [mk_transport 1 5 true; mk_transport 3 5 false]
    [Route.mk 1 1 2] [TransportRoute.mk 1 100 300 1 1] [] true.

(** ** Sample requests *)

Definition blackout_10_12 : ScheduleCreate.t :=
  ScheduleCreate.mk 1 t_1000 t_1200 TECHNICAL.

Definition blackout_11_12 : ScheduleCreate.t :=
  ScheduleCreate.mk 1 t_1100 t_1200 OTHER.

Definition blackout_10_12_row : Schedule.t :=
  Schedule.mk 2 t_1000 t_1200 TECHNICAL 1.

Definition route_db (fk : bool) : DB :=
  mkDB [City.mk 1; City.mk 2] [Carrier.mk 1 7] [mk_transport 1 5 true]
    [] [] [] fk.

(** A search filter breaking all three invariants. *)
Definition bad_filter : TransportFilter.t :=
  TransportFilter.mk 1 2 t_0800 t_0800 20 500 100 None None None None None
    (Some sort_rating) (Some order_desc).

(** ** Sample runs *)

Example scenario_back_to_back :
  search_ids scenario_db (scenario_filter t_1000 t_1200) = [1].
Proof. vm_compute. reflexivity. Qed.

Example scenario_overlap :
  filter_transports_service (scenario_filter t_0900 t_1100) scenario_db
  = Err no_transports_found.
Proof. vm_compute. reflexivity. Qed.

Example scenario_reverse_route :
  search_ids scenario_db reverse_filter = [].
Proof. vm_compute. reflexivity. Qed.

Example scenario_price_band :
  search_ids scenario_db
    (TransportFilter.mk 1 2 t_1000 t_1200 20 50 90 None None None None None
       None None) = []
  /\ search_ids scenario_db
    (TransportFilter.mk 1 2 t_1000 t_1200 20 50 600 None None None None None
       None None) = [1].
Proof. vm_compute. split; reflexivity. Qed.

Example scenario_get_by_id :
  get_transport_by_id_service 1 scenario_db = Ok (to_response (mk_transport 1 5 true) (TransportRoute.mk 1 100 300 1 1))
  /\ get_transport_by_id_service 2 scenario_db = Err transport_not_found.
Proof. vm_compute. split; reflexivity. Qed.

(** ** Lemmas on the search *)

Lemma in_joined_rows db t tr r :
  In (t, tr, r) (joined_rows db) <->
  In t (transports db) /\ In tr (transport_routes db)
  /\ TransportRoute.transport_id tr = Transport.id t
  /\ In r (routes db) /\ Route.id r = TransportRoute.route_id tr.
Proof.
  unfold joined_rows. rewrite in_flat_map. split.
  - intros [t' [Ht' Hin]]. rewrite in_flat_map in Hin.
    destruct Hin as [tr' [Htr' Hin]].
    destruct (TransportRoute.transport_id tr' =? Transport.id t') eqn:E;
      [|contradiction].
    apply in_map_iff in Hin. destruct Hin as [r' [Heq Hr']].
    inversion Heq; subst. apply filter_In in Hr'. destruct Hr' as [Hr' Hid].
    apply Z.eqb_eq in E. apply Z.eqb_eq in Hid. tauto.
  - intros (Ht & Htr & Htid & Hr & Hrid). exists t. split; [assumption|].
    rewrite in_flat_map. exists tr. split; [assumption|].
    rewrite Htid, Z.eqb_refl. apply in_map_iff. exists r. split; [reflexivity|].
    apply filter_In. split; [assumption|]. apply Z.eqb_eq; assumption.
Qed.

Lemma insert_by_perm {A} (before : A -> A -> bool) x l :
  Permutation (insert_by before x l) (x :: l).
Proof.
  induction l as [|y l IH]; simpl; [reflexivity|].
  destruct (before x y); [reflexivity|].
  rewrite IH. apply perm_swap.
Qed.

Lemma sort_by_key_perm {A} (before : A -> A -> bool) l :
  Permutation (sort_by_key before l) l.
Proof.
  induction l as [|x l IH]; simpl; [reflexivity|].
  rewrite insert_by_perm. apply perm_skip. exact IH.
Qed.

Lemma insert_by_sorted {A} (before : A -> A -> bool)
  (Htotal : forall a b, before a b = false -> before b a = true) x l :
  Sorted (fun a b => before a b = true) l ->
  Sorted (fun a b => before a b = true) (insert_by before x l).
Proof.
  induction l as [|y l IH]; intros Hs; simpl.
  - constructor; constructor.
  - destruct (before x y) eqn:Exy.
    + constructor; [exact Hs | constructor; exact Exy].
    + apply Sorted_inv in Hs. destruct Hs as [Hs Hhd].
      constructor; [apply IH; exact Hs|].
      destruct l as [|z l']; simpl.
      * constructor. apply Htotal. exact Exy.
      * destruct (before x z).
        -- constructor. apply Htotal. exact Exy.
        -- constructor. inversion Hhd; assumption.
Qed.

Lemma sort_by_key_sorted {A} (before : A -> A -> bool)
  (Htotal : forall a b, before a b = false -> before b a = true) l :
  Sorted (fun a b => before a b = true) (sort_by_key before l).
Proof.
  induction l as [|x l IH]; simpl; [constructor|].
  apply insert_by_sorted; assumption.
Qed.

Lemma Sorted_map_rel {A B} (R : A -> A -> Prop) (Q : B -> B -> Prop)
  (g : A -> B) (Hg : forall a b, R a b -> Q (g a) (g b)) l :
  Sorted R l -> Sorted Q (map g l).
Proof.
  induction 1 as [|a l Hs IH Hhd]; simpl; constructor; [exact IH|].
  destruct Hhd; simpl; constructor. apply Hg. assumption.
Qed.

Lemma search_responses_ordered db f :
  search_responses db f
  = map (fun '(t, tr) => to_response t tr) (ordered_rows db f).
Proof.
  unfold search_responses, filter_transports_service.
  destruct (ordered_rows db f); reflexivity.
Qed.

Lemma in_search_responses db f x :
  In x (search_responses db f) <->
  exists t tr r, In (t, tr, r) (joined_rows db)
    /\ where_clause db f (t, tr, r) = true /\ x = to_response t tr.
Proof.
  rewrite search_responses_ordered, in_map_iff. split.
  - intros [[t tr] [Hx Hin]].
    unfold ordered_rows in Hin.
    apply (Permutation_in _ (sort_by_key_perm _ _)) in Hin.
    unfold selected_rows in Hin. apply in_map_iff in Hin.
    destruct Hin as [[[t' tr'] r'] [Heq Hin]]. inversion Heq; subst.
    apply filter_In in Hin. exists t, tr, r'. tauto.
  - intros (t & tr & r & Hj & Hw & Hx). exists (t, tr). split; [symmetry; exact Hx|].
    unfold ordered_rows.
    apply (Permutation_in _ (Permutation_sym (sort_by_key_perm _ _))).
    unfold selected_rows. apply in_map_iff. exists (t, tr, r). split; [reflexivity|].
    apply filter_In. split; assumption.
Qed.

Lemma in_search_ids db f v :
  In v (search_ids db f) <->
  exists t tr r, In (t, tr, r) (joined_rows db)
    /\ where_clause db f (t, tr, r) = true /\ Transport.id t = v.
Proof.
  unfold search_ids. rewrite in_map_iff. split.
  - intros [x [Hv Hx]]. apply in_search_responses in Hx.
    destruct Hx as (t & tr & r & Hj & Hw & ->). exists t, tr, r. tauto.
  - intros (t & tr & r & Hj & Hw & Hv). exists (to_response t tr).
    split; [exact Hv|]. apply in_search_responses. exists t, tr, r. tauto.
Qed.

Lemma where_clause_busy db f t tr r :
  where_clause db f (t, tr, r)
  = where_but_busy f (t, tr, r) && not_busy db f (Transport.id t).
Proof.
  unfold where_clause, where_but_busy, not_busy, price_in_bounds. btauto.
Qed.

Lemma where_clause_price db f t tr r :
  where_clause db f (t, tr, r)
  = where_but_price db f (t, tr, r) && price_in_bounds f tr.
Proof.
  unfold where_clause, where_but_price, not_busy, price_in_bounds. btauto.
Qed.

Lemma not_busy_spec db f v :
  not_busy db f v = true <->
  ~ exists s, In s (schedules db) /\ Schedule.id_transport s = v
      /\ ~ (Schedule.end_time s <= TransportFilter.start_time f
            \/ Schedule.start_time s >= TransportFilter.end_time f).
Proof.
  unfold not_busy, busy_transports. rewrite negb_true_iff.
  split.
  - intros Hno (s & Hs & Hid & Hov).
    assert (Hex : existsb (Z.eqb v) (map Schedule.id_transport
                    (filter (overlaps_window f) (schedules db))) = true).
    { apply existsb_exists. exists (Schedule.id_transport s). split.
      - apply in_map. apply filter_In. split; [exact Hs|].
        unfold overlaps_window. apply negb_true_iff, orb_false_iff.
        rewrite Z.leb_gt, Z.geb_leb, Z.leb_gt. lia.
      - apply Z.eqb_eq. symmetry. exact Hid. }
    congruence.
  - intros Hno. destruct (existsb _ _) eqn:Hex; [|reflexivity].
    exfalso. apply Hno. apply existsb_exists in Hex.
    destruct Hex as [v' [Hv' Heq]]. apply Z.eqb_eq in Heq. subst v'.
    apply in_map_iff in Hv'. destruct Hv' as [s [Hid Hs]].
    apply filter_In in Hs. destruct Hs as [Hs Hov].
    exists s. split; [exact Hs|]. split; [exact Hid|].
    unfold overlaps_window in Hov. apply negb_true_iff, orb_false_iff in Hov.
    rewrite Z.leb_gt, Z.geb_leb, Z.leb_gt in Hov. lia.
Qed.

Lemma where_clause_route db f t tr r :
  where_clause db f (t, tr, r) = true ->
  Route.id_from r = TransportFilter.id_from f
  /\ Route.id_to r = TransportFilter.id_to f.
Proof.
  unfold where_clause. intros H. rewrite !andb_true_iff in H.
  decompose [and] H. split; apply Z.eqb_eq; assumption.
Qed.

Lemma price_in_bounds_spec f tr :
  price_in_bounds f tr = true <->
  TransportRoute.min_price tr >= TransportFilter.min_price f
  /\ TransportRoute.max_price tr <= TransportFilter.max_price f.
Proof.
  unfold price_in_bounds. rewrite andb_true_iff, Z.geb_le, Z.leb_le. lia.
Qed.

Lemma transport_with_routes_nil v db :
  (forall t tr, In t (transports db) -> Transport.id t = v ->
     In tr (transport_routes db) -> TransportRoute.transport_id tr <> v) ->
  transport_with_routes v db = [].
Proof.
  intros H. remember (transport_with_routes v db) as L eqn:E.
  destruct L as [|[t tr] L]; [reflexivity|]. exfalso.
  assert (Hx : In (t, tr) (transport_with_routes v db)) by (rewrite <- E; left; reflexivity).
  unfold transport_with_routes in Hx. apply in_flat_map in Hx.
  destruct Hx as [t' [Ht' Hx]].
  destruct (Transport.id t' =? v) eqn:Ev; [|contradiction].
  apply in_map_iff in Hx. destruct Hx as [tr' [Heq Htr']].
  apply filter_In in Htr'. destruct Htr' as [Htr' Hid].
  apply Z.eqb_eq in Ev. apply Z.eqb_eq in Hid.
  apply (H t' tr'); [assumption | assumption | assumption | congruence].
Qed.

(** * Claims *)

(** C1: a vehicle whose row passes every other condition of the search is
    left out of the result exactly when one of its schedules [s, e)
    satisfies [NOT (e <= qs OR s >= qe)] against the window [qs, qe);
    schedules that only touch the window ([e = qs] or [s = qe]) never
    exclude it. *)
Theorem search_excludes_iff_overlap (db : DB) (f : TransportFilter.t)
  (t : Transport.t) (tr : TransportRoute.t) (r : Route.t)
  (Hrow : In (t, tr, r) (joined_rows db))
  (Hother : where_but_busy f (t, tr, r) = true) :
  (In (Transport.id t) (search_ids db f) <->
   ~ exists s, In s (schedules db) /\ Schedule.id_transport s = Transport.id t
       /\ ~ (Schedule.end_time s <= TransportFilter.start_time f
             \/ Schedule.start_time s >= TransportFilter.end_time f))
  /\ ((forall s, In s (schedules db) ->
         Schedule.id_transport s = Transport.id t ->
         Schedule.end_time s = TransportFilter.start_time f
         \/ Schedule.start_time s = TransportFilter.end_time f) ->
      In (Transport.id t) (search_ids db f)).
Proof.
  assert (Hiff : In (Transport.id t) (search_ids db f) <->
   ~ exists s, In s (schedules db) /\ Schedule.id_transport s = Transport.id t
       /\ ~ (Schedule.end_time s <= TransportFilter.start_time f
             \/ Schedule.start_time s >= TransportFilter.end_time f)).
  { split.
    - intros Hin. apply in_search_ids in Hin.
      destruct Hin as (t' & tr' & r' & Hj & Hw & Hid).
      rewrite where_clause_busy in Hw. apply andb_true_iff in Hw.
      destruct Hw as [_ Hnb]. rewrite Hid in Hnb.
      apply not_busy_spec in Hnb. exact Hnb.
    - intros Hno. apply in_search_ids. exists t, tr, r.
      split; [exact Hrow|]. split; [|reflexivity].
      rewrite where_clause_busy, Hother. apply not_busy_spec. exact Hno. }
  split; [exact Hiff|].
  intros Htouch. apply Hiff. intros (s & Hs & Hid & Hov).
  destruct (Htouch s Hs Hid); lia.
Qed.

Lemma search_excludes_iff_overlap_witness :
  In (mk_transport 1 5 true, TransportRoute.mk 1 100 300 1 1, Route.mk 1 1 2)
     (joined_rows scenario_db)
  /\ where_but_busy (scenario_filter t_1000 t_1200)
       (mk_transport 1 5 true, TransportRoute.mk 1 100 300 1 1, Route.mk 1 1 2) = true
  /\ ((In 1 (search_ids scenario_db (scenario_filter t_1000 t_1200)) <->
      ~ exists s, In s (schedules scenario_db) /\ Schedule.id_transport s = 1
          /\ ~ (Schedule.end_time s <= t_1000 \/ Schedule.start_time s >= t_1200))
     /\ ((forall s, In s (schedules scenario_db) -> Schedule.id_transport s = 1 ->
            Schedule.end_time s = t_1000 \/ Schedule.start_time s = t_1200) ->
         In 1 (search_ids scenario_db (scenario_filter t_1000 t_1200)))).
Proof.
  assert (Hrow : In (mk_transport 1 5 true, TransportRoute.mk 1 100 300 1 1,
                     Route.mk 1 1 2) (joined_rows scenario_db))
    by (vm_compute; left; reflexivity).
  assert (Hother : where_but_busy (scenario_filter t_1000 t_1200)
            (mk_transport 1 5 true, TransportRoute.mk 1 100 300 1 1,
             Route.mk 1 1 2) = true) by (vm_compute; reflexivity).
  exact (conj Hrow (conj Hother
    (search_excludes_iff_overlap scenario_db (scenario_filter t_1000 t_1200)
       _ _ _ Hrow Hother))).
Defined.

(** C2 (corrected): the search never answers with an empty list.  When no
    row passes the where clause it raises [HTTPException(404, "No
    transports found matching the filters")]; otherwise it returns a
    non-empty list.  This is the only error the service raises. *)
Theorem search_empty_raises_404 (db : DB) (f : TransportFilter.t) :
  match filter_transports_service f db with
  | Ok l => l <> [] /\ selected_rows db f <> []
  | Err e => e = no_transports_found /\ selected_rows db f = []
  end.
Proof.
  unfold filter_transports_service.
  destruct (ordered_rows db f) as [|p l] eqn:E.
  - split; [reflexivity|]. unfold ordered_rows in E.
    apply Permutation_nil. rewrite <- E. apply sort_by_key_perm.
  - split.
    + destruct p; simpl; discriminate.
    + intros Hs. unfold ordered_rows in E. rewrite Hs in E. discriminate.
Qed.

(** C2 counterexample: spec section 8's search over [09:00, 11:00) leaves no
    vehicle, and the service raises the 404 instead of returning [[]]. *)
Lemma search_empty_raises_404_counterexample :
  validate_times_and_prices day_before (scenario_filter t_0900 t_1100)
    = Ok (scenario_filter t_0900 t_1100)
  /\ selected_rows scenario_db (scenario_filter t_0900 t_1100) = []
  /\ filter_transports_service (scenario_filter t_0900 t_1100) scenario_db
     = Err no_transports_found
  /\ filter_transports_service (scenario_filter t_0900 t_1100) scenario_db <> Ok [].
Proof.
  vm_compute. split; [reflexivity|]. split; [reflexivity|].
  split; [reflexivity|]. discriminate.
Qed.

(** C3: a vehicle row that passes every other condition of the search is
    returned exactly when its price band lies inside the requested bounds:
    [min_price >= filter.min_price] and [max_price <= filter.max_price]. *)
Theorem search_price_containment (db : DB) (f : TransportFilter.t)
  (t : Transport.t) (tr : TransportRoute.t) (r : Route.t)
  (Hrow : In (t, tr, r) (joined_rows db))
  (Hother : where_but_price db f (t, tr, r) = true) :
  In (to_response t tr) (search_responses db f) <->
  TransportRoute.min_price tr >= TransportFilter.min_price f
  /\ TransportRoute.max_price tr <= TransportFilter.max_price f.
Proof.
  split.
  - intros Hin. apply in_search_responses in Hin.
    destruct Hin as (t' & tr' & r' & Hj & Hw & Heq).
    rewrite where_clause_price in Hw. apply andb_true_iff in Hw.
    destruct Hw as [_ Hp]. apply price_in_bounds_spec in Hp.
    assert (Hmin := f_equal TransportFilterResponse.min_price Heq).
    assert (Hmax := f_equal TransportFilterResponse.max_price Heq).
    simpl in Hmin, Hmax. lia.
  - intros Hp. apply in_search_responses. exists t, tr, r.
    split; [exact Hrow|]. split; [|reflexivity].
    rewrite where_clause_price, Hother. apply price_in_bounds_spec. exact Hp.
Qed.

Lemma search_price_containment_witness :
  In (mk_transport 1 5 true, TransportRoute.mk 1 100 300 1 1, Route.mk 1 1 2)
     (joined_rows scenario_db)
  /\ where_but_price scenario_db (scenario_filter t_1000 t_1200)
       (mk_transport 1 5 true, TransportRoute.mk 1 100 300 1 1, Route.mk 1 1 2) = true
  /\ (In (to_response (mk_transport 1 5 true) (TransportRoute.mk 1 100 300 1 1))
        (search_responses scenario_db (scenario_filter t_1000 t_1200))
      <-> 100 >= 50 /\ 300 <= 350).
Proof.
  assert (Hrow : In (mk_transport 1 5 true, TransportRoute.mk 1 100 300 1 1,
                     Route.mk 1 1 2) (joined_rows scenario_db))
    by (vm_compute; left; reflexivity).
  assert (Hother : where_but_price scenario_db (scenario_filter t_1000 t_1200)
            (mk_transport 1 5 true, TransportRoute.mk 1 100 300 1 1,
             Route.mk 1 1 2) = true) by (vm_compute; reflexivity).
  exact (conj Hrow (conj Hother
    (search_price_containment scenario_db (scenario_filter t_1000 t_1200)
       _ _ _ Hrow Hother))).
Defined.

(** C5: for a search from A to B with A <> B, a vehicle all of whose
    assignments are on the route B -> A never appears in the result. *)
Theorem search_route_directional (db : DB) (f : TransportFilter.t) (v : Z)
  (Hdistinct : TransportFilter.id_from f <> TransportFilter.id_to f)
  (Honly : forall tr r, In tr (transport_routes db) ->
     TransportRoute.transport_id tr = v -> In r (routes db) ->
     Route.id r = TransportRoute.route_id tr ->
     Route.id_from r = TransportFilter.id_to f
     /\ Route.id_to r = TransportFilter.id_from f) :
  ~ In v (search_ids db f).
Proof.
  intros Hin. apply in_search_ids in Hin.
  destruct Hin as (t & tr & r & Hj & Hw & Hid).
  apply in_joined_rows in Hj. destruct Hj as (_ & Htr & Htid & Hr & Hrid).
  apply where_clause_route in Hw. destruct Hw as [Hfrom Hto].
  destruct (Honly tr r Htr ltac:(congruence) Hr Hrid) as [Hfrom' Hto'].
  congruence.
Qed.

Lemma search_route_directional_witness :
  TransportFilter.id_from reverse_filter <> TransportFilter.id_to reverse_filter
  /\ (forall tr r, In tr (transport_routes scenario_db) ->
        TransportRoute.transport_id tr = 1 -> In r (routes scenario_db) ->
        Route.id r = TransportRoute.route_id tr ->
        Route.id_from r = TransportFilter.id_to reverse_filter
        /\ Route.id_to r = TransportFilter.id_from reverse_filter)
  /\ ~ In 1 (search_ids scenario_db reverse_filter).
Proof.
  assert (Hdistinct : TransportFilter.id_from reverse_filter
                      <> TransportFilter.id_to reverse_filter)
    by (vm_compute; discriminate).
  assert (Honly : forall tr r, In tr (transport_routes scenario_db) ->
        TransportRoute.transport_id tr = 1 -> In r (routes scenario_db) ->
        Route.id r = TransportRoute.route_id tr ->
        Route.id_from r = TransportFilter.id_to reverse_filter
        /\ Route.id_to r = TransportFilter.id_from reverse_filter).
  { intros tr r Htr Hid Hr Hrid. simpl in Htr, Hr.
    destruct Htr as [<-|[]]. destruct Hr as [<-|[]]. split; reflexivity. }
  exact (conj Hdistinct (conj Honly
    (search_route_directional scenario_db reverse_filter 1 Hdistinct Honly))).
Defined.

(** C8 (corrected): the responses are ordered by the requested key only:
    the rating, or the assignment's minimum price when [sort_by] is
    ["price"], descending when [sort_order] is ["desc"] and ascending
    otherwise.  No vehicle-id tie-break is applied. *)
Theorem search_sorted_by_key (db : DB) (f : TransportFilter.t) :
  Sorted (response_before f) (search_responses db f).
Proof.
  rewrite search_responses_ordered.
  apply (Sorted_map_rel (fun a b => order_before f a b = true)).
  - intros [t1 tr1] [t2 tr2] H. unfold order_before, response_before in *.
    destruct (TransportFilter.sort_by f) as [[|]|];
      destruct (is_desc (TransportFilter.sort_order f));
      simpl in *; apply Z.leb_le in H; exact H.
  - apply sort_by_key_sorted. intros a b H. unfold order_before in *.
    destruct (is_desc (TransportFilter.sort_order f));
      apply Z.leb_gt in H; apply Z.leb_le; lia.
Qed.

(** C8 counterexample: vehicles 2 and 1 share rating 4 and are stored in
    that order; the search returns vehicle 2 before vehicle 1. *)
Lemma search_sorted_by_key_counterexample :
  map (fun x => (TransportFilterResponse.id x, TransportFilterResponse.rating x))
    (search_responses tie_db (scenario_filter t_1000 t_1200))
  = [(2, 4); (1, 4)].
Proof. vm_compute. reflexivity. Qed.

(** C10: [get_transport_by_id_service] answers [404 "Transport not found"]
    for a registered vehicle that has no route assignment, exactly as it
    does once that vehicle is gone from the store. *)
Theorem get_by_id_without_routes_not_found (db : DB) (t : Transport.t)
  (Hin : In t (transports db))
  (Hnone : forall tr, In tr (transport_routes db) ->
     TransportRoute.transport_id tr <> Transport.id t) :
  get_transport_by_id_service (Transport.id t) db = Err transport_not_found
  /\ get_transport_by_id_service (Transport.id t)
       (without_transport db (Transport.id t)) = Err transport_not_found.
Proof.
  unfold get_transport_by_id_service. split.
  - rewrite transport_with_routes_nil; [reflexivity|].
    intros t' tr _ _ Htr. apply Hnone. exact Htr.
  - rewrite transport_with_routes_nil; [reflexivity|].
    intros t' tr Ht' Hid _. simpl in Ht'. apply filter_In in Ht'.
    destruct Ht' as [_ Hne]. rewrite Hid, Z.eqb_refl in Hne. discriminate.
Qed.

Lemma get_by_id_without_routes_not_found_witness :
  In (mk_transport 3 5 false) (transports no_route_db)
  /\ (forall tr, In tr (transport_routes no_route_db) ->
        TransportRoute.transport_id tr <> 3)
  /\ get_transport_by_id_service 3 no_route_db = Err transport_not_found
  /\ get_transport_by_id_service 3 (without_transport no_route_db 3)
     = Err transport_not_found.
Proof.
  assert (Hin : In (mk_transport 3 5 false) (transports no_route_db))
    by (simpl; right; left; reflexivity).
  assert (Hnone : forall tr, In tr (transport_routes no_route_db) ->
            TransportRoute.transport_id tr <> Transport.id (mk_transport 3 5 false)).
  { intros tr Htr. simpl in Htr. destruct Htr as [<-|[]]. simpl. discriminate. }
  exact (conj Hin (conj Hnone
    (get_by_id_without_routes_not_found no_route_db _ Hin Hnone))).
Defined.

(** ** Lemmas on the write paths *)

Lemma validate_schedule_ok now p q :
  validate_schedule now p = Ok q -> q = p.
Proof.
  unfold validate_schedule.
  destruct (_ <? _); [discriminate|].
  destruct (_ <=? _); [discriminate|].
  intros H. inversion H. reflexivity.
Qed.

Lemma get_transport_ok_id tid user db t :
  get_transport_and_validate_user tid user db = Ok t -> Transport.id t = tid.
Proof.
  unfold get_transport_and_validate_user.
  destruct (filter (fun t => Transport.id t =? tid) (transports db))
    as [|x [|y l]] eqn:E; simpl; try discriminate.
  assert (Hx : In x (filter (fun t => Transport.id t =? tid) (transports db)))
    by (rewrite E; left; reflexivity).
  apply filter_In in Hx. destruct Hx as [_ Hx]. apply Z.eqb_eq in Hx.
  destruct (find _ _); [|discriminate].
  destruct (negb _); [discriminate|].
  intros H. inversion H. congruence.
Qed.

(** The ownership check reads transports and carriers only. *)
Lemma get_transport_with_schedules tid user db l :
  get_transport_and_validate_user tid user (with_schedules db l)
  = get_transport_and_validate_user tid user db.
Proof. reflexivity. Qed.

Lemma commit_route_ok r db db' :
  commit_route r db = Ok db' -> db' = with_routes db (routes db ++ [r]).
Proof.
  unfold commit_route.
  destruct (existsb _ _); [discriminate|].
  destruct (enforce_fk db && _); [discriminate|].
  intros H. inversion H. reflexivity.
Qed.

Lemma filter_nil_existsb {A} (g : A -> bool) l :
  filter g l = [] -> existsb g l = false.
Proof.
  induction l as [|x l IH]; simpl; [reflexivity|].
  destruct (g x); [discriminate|]. exact IH.
Qed.

Example blackout_requests :
  add_schedule_request day_before 7 blackout_10_12 scenario_db
  = Ok (blackout_10_12_row,
        with_schedules scenario_db (schedules scenario_db ++ [blackout_10_12_row]))
  /\ add_schedule_request day_before 7 blackout_10_12
       (with_schedules scenario_db (schedules scenario_db ++ [blackout_10_12_row]))
     = Err schedule_exists_exc
  /\ add_schedule_request day_before 8 blackout_10_12 scenario_db
     = Err (HTTPException 403 "Access denied").
Proof. vm_compute. repeat split; reflexivity. Qed.

(** C4: once [addInterval] has stored a schedule, repeating the request
    with the same (transport, start, end) fails with the 400 duplicate
    error (or with the validator's error, should the request no longer
    validate), while a request for the same transport differing in start or
    end, valid and without a literal twin among the earlier schedules,
    succeeds whether or not it overlaps. *)
Theorem add_schedule_literal_duplicate (now1 now2 user : Z)
  (p p' : ScheduleCreate.t) (db db1 : DB) (sch : Schedule.t)
  (Hfirst : add_schedule_request now1 user p db = Ok (sch, db1))
  (Hsame : ScheduleCreate.transport_id p' = ScheduleCreate.transport_id p)
  (Hdiff : ScheduleCreate.start_time p' <> ScheduleCreate.start_time p
           \/ ScheduleCreate.end_time p' <> ScheduleCreate.end_time p)
  (Hvalid' : validate_schedule now2 p' = Ok p')
  (Hfresh' : filter (same_times p') (schedules db) = []) :
  add_schedule_request now2 user p db1
  = match validate_schedule now2 p with
    | Ok _ => Err schedule_exists_exc
    | Err e => Err e
    end
  /\ exists sch' db2, add_schedule_request now2 user p' db1 = Ok (sch', db2).
Proof.
  unfold add_schedule_request in Hfirst.
  destruct (validate_schedule now1 p) as [q|e] eqn:V1; [|discriminate].
  apply validate_schedule_ok in V1. subst q. simpl in Hfirst.
  unfold add_transport_schedule_service in Hfirst.
  destruct (get_transport_and_validate_user (ScheduleCreate.transport_id p) user db)
    as [t|e] eqn:G; [|discriminate].
  simpl in Hfirst.
  pose proof (get_transport_ok_id _ _ _ _ G) as Hid.
  destruct (filter (same_times p) (schedules db)) as [|x [|y l]] eqn:F;
    simpl in Hfirst; try discriminate.
  inversion Hfirst; subst sch db1; clear Hfirst.
  split.
  - unfold add_schedule_request.
    destruct (validate_schedule now2 p) as [q|e] eqn:V2; [|reflexivity].
    apply validate_schedule_ok in V2. subst q. simpl.
    unfold add_transport_schedule_service.
    rewrite get_transport_with_schedules, G. simpl.
    rewrite filter_app, F. simpl.
    unfold same_times at 1. simpl. rewrite Hid, !Z.eqb_refl. reflexivity.
  - unfold add_schedule_request. rewrite Hvalid'. simpl.
    unfold add_transport_schedule_service.
    rewrite Hsame, get_transport_with_schedules, G. simpl.
    rewrite filter_app, Hfresh'. simpl.
    assert (Hn : same_times p' (Schedule.mk (next_id (map Schedule.id (schedules db)))
                   (ScheduleCreate.start_time p) (ScheduleCreate.end_time p)
                   (ScheduleCreate.reason p) (Transport.id t)) = false).
    { unfold same_times. simpl.
      destruct Hdiff as [Hd|Hd].
      - replace (ScheduleCreate.start_time p =? ScheduleCreate.start_time p')
          with false by (symmetry; apply Z.eqb_neq; congruence).
        btauto.
      - replace (ScheduleCreate.end_time p =? ScheduleCreate.end_time p')
          with false by (symmetry; apply Z.eqb_neq; congruence).
        btauto. }
    rewrite Hn. simpl. eexists. eexists. reflexivity.
Qed.

Lemma add_schedule_literal_duplicate_witness :
  add_schedule_request day_before 7 blackout_10_12 scenario_db
    = Ok (blackout_10_12_row,
          with_schedules scenario_db (schedules scenario_db ++ [blackout_10_12_row]))
  /\ ScheduleCreate.transport_id blackout_11_12 = ScheduleCreate.transport_id blackout_10_12
  /\ (ScheduleCreate.start_time blackout_11_12 <> ScheduleCreate.start_time blackout_10_12
      \/ ScheduleCreate.end_time blackout_11_12 <> ScheduleCreate.end_time blackout_10_12)
  /\ validate_schedule day_before blackout_11_12 = Ok blackout_11_12
  /\ filter (same_times blackout_11_12) (schedules scenario_db) = []
  /\ (add_schedule_request day_before 7 blackout_10_12
        (with_schedules scenario_db (schedules scenario_db ++ [blackout_10_12_row]))
      = match validate_schedule day_before blackout_10_12 with
        | Ok _ => Err schedule_exists_exc
        | Err e => Err e
        end
      /\ exists sch' db2, add_schedule_request day_before 7 blackout_11_12
           (with_schedules scenario_db (schedules scenario_db ++ [blackout_10_12_row]))
           = Ok (sch', db2)).
Proof.
  assert (H1 : add_schedule_request day_before 7 blackout_10_12 scenario_db
    = Ok (blackout_10_12_row,
          with_schedules scenario_db (schedules scenario_db ++ [blackout_10_12_row])))
    by (vm_compute; reflexivity).
  assert (H2 : ScheduleCreate.transport_id blackout_11_12
               = ScheduleCreate.transport_id blackout_10_12) by reflexivity.
  assert (H3 : ScheduleCreate.start_time blackout_11_12
                 <> ScheduleCreate.start_time blackout_10_12
               \/ ScheduleCreate.end_time blackout_11_12
                 <> ScheduleCreate.end_time blackout_10_12)
    by (left; vm_compute; discriminate).
  assert (H4 : validate_schedule day_before blackout_11_12 = Ok blackout_11_12)
    by (vm_compute; reflexivity).
  assert (H5 : filter (same_times blackout_11_12) (schedules scenario_db) = [])
    by (vm_compute; reflexivity).
  exact (conj H1 (conj H2 (conj H3 (conj H4 (conj H5
    (add_schedule_literal_duplicate _ _ _ _ _ _ _ _ H1 H2 H3 H4 H5)))))).
Defined.

(** C6: when [get_or_create_route A B] succeeds, calling it again on the
    resulting store raises nothing, returns the same route and leaves the
    store as it is; that store holds exactly one route row from A to B. *)
Theorem get_or_create_route_idempotent (A B : Z) (db db1 : DB) (r : Route.t)
  (Hfirst : get_or_create_route A B db = Ok (r, db1)) :
  get_or_create_route A B db1 = Ok (r, db1)
  /\ List.length (filter (route_matches A B) (routes db1)) = 1%nat.
Proof.
  unfold get_or_create_route in Hfirst.
  destruct (filter (route_matches A B) (routes db)) as [|x [|y l]] eqn:F;
    simpl in Hfirst; try discriminate.
  - destruct (commit_route _ db) as [db'|e] eqn:C; simpl in Hfirst; [|discriminate].
    apply commit_route_ok in C. inversion Hfirst; subst r db1; clear Hfirst.
    subst db'.
    assert (Hr : filter (route_matches A B)
                   (routes (with_routes db (routes db
                      ++ [Route.mk (next_id (map Route.id (routes db))) A B])))
                 = [Route.mk (next_id (map Route.id (routes db))) A B]).
    { simpl. rewrite filter_app, F. unfold route_matches at 1. simpl.
      rewrite !Z.eqb_refl. reflexivity. }
    unfold get_or_create_route. rewrite Hr. split; reflexivity.
  - inversion Hfirst; subst r db1; clear Hfirst.
    unfold get_or_create_route. rewrite F. split; reflexivity.
Qed.

Lemma get_or_create_route_idempotent_witness :
  get_or_create_route 1 2 (route_db true)
    = Ok (Route.mk 1 1 2, with_routes (route_db true) [Route.mk 1 1 2])
  /\ get_or_create_route 1 2 (with_routes (route_db true) [Route.mk 1 1 2])
     = Ok (Route.mk 1 1 2, with_routes (route_db true) [Route.mk 1 1 2])
  /\ List.length (filter (route_matches 1 2)
               (routes (with_routes (route_db true) [Route.mk 1 1 2]))) = 1%nat.
Proof.
  assert (H : get_or_create_route 1 2 (route_db true)
    = Ok (Route.mk 1 1 2, with_routes (route_db true) [Route.mk 1 1 2]))
    by (vm_compute; reflexivity).
  exact (conj H (get_or_create_route_idempotent _ _ _ _ _ H)).
Defined.

(** C9 (corrected): [get_or_create_route] checks no city itself.  When
    origin or destination is not a city and the pair is not yet a route,
    the new row goes to the database: where foreign keys are enforced the
    commit fails with an [IntegrityError] the service does not handle, and
    nothing is stored; otherwise the route is created. *)
Theorem get_or_create_route_missing_city (A B : Z) (db : DB)
  (Hmissing : city_exists db A = false \/ city_exists db B = false)
  (Hnew : filter (route_matches A B) (routes db) = []) :
  get_or_create_route A B db =
  if enforce_fk db then Err IntegrityError
  else Ok (Route.mk (next_id (map Route.id (routes db))) A B,
           with_routes db (routes db
             ++ [Route.mk (next_id (map Route.id (routes db))) A B])).
Proof.
  unfold get_or_create_route. rewrite Hnew. simpl. unfold commit_route. simpl.
  replace (existsb _ (routes db)) with false
    by (symmetry; apply (filter_nil_existsb (route_matches A B)); exact Hnew).
  destruct (enforce_fk db); simpl; [|reflexivity].
  destruct Hmissing as [H|H]; rewrite H; [|rewrite andb_false_r]; reflexivity.
Qed.

Lemma get_or_create_route_missing_city_witness :
  (city_exists (route_db true) 1 = false \/ city_exists (route_db true) 99 = false)
  /\ filter (route_matches 1 99) (routes (route_db true)) = []
  /\ get_or_create_route 1 99 (route_db true) = Err IntegrityError.
Proof.
  assert (Hm : city_exists (route_db true) 1 = false
               \/ city_exists (route_db true) 99 = false)
    by (right; vm_compute; reflexivity).
  assert (Hn : filter (route_matches 1 99) (routes (route_db true)) = [])
    by reflexivity.
  exact (conj Hm (conj Hn (get_or_create_route_missing_city _ _ _ Hm Hn))).
Defined.

(** C9 counterexample: city 99 does not exist.  Adding route 1 -> 99 to an
    owned vehicle fails with the unhandled [IntegrityError] under enforced
    foreign keys, and creates the route when they are not enforced; in no
    case is a reference error reported. *)
Lemma get_or_create_route_missing_city_counterexample :
  add_route_to_transport_service 1 1 99 100 300 7 (route_db true)
    = (Err IntegrityError, route_db true)
  /\ add_route_to_transport_service 1 1 99 100 300 7 (route_db false)
     = (Ok (TransportRoute.mk 1 100 300 1 1),
        with_transport_routes (with_routes (route_db false) [Route.mk 1 1 99])
          [TransportRoute.mk 1 100 300 1 1])
  /\ city_exists (route_db false) 99 = false.
Proof. vm_compute. repeat split. Qed.

(** [validate_times_and_prices] raises while building its error: any
    violation at all ends in pydantic-core's [TypeError]. *)
Lemma validate_times_and_prices_type_error now f :
  filter_errors now f <> [] ->
  validate_times_and_prices now f
  = Err (TypeError "'tuple' object cannot be converted to 'PyDict'").
Proof.
  unfold validate_times_and_prices.
  destruct (filter_errors now f) as [|[k v] l]; [contradiction|].
  intros _. reflexivity.
Qed.

(** C7 (code bug): the validator collects every violated field of
    [bad_filter] at 10:00, but raising them fails inside
    [ValidationError.from_exception_data], which is handed [(field, reason)]
    tuples instead of error dicts: the request ends in a [TypeError], not
    in a validation error listing the fields. *)
Theorem validate_times_and_prices_all_violations :
  filter_errors t_1000 bad_filter
  = [("start_time", "Must be in the future");
     ("end_time", "Must be after start_time");
     ("max_price", "Must be greater than or equal to min_price")]
  /\ validate_times_and_prices t_1000 bad_filter
     = Err (TypeError "'tuple' object cannot be converted to 'PyDict'").
Proof. vm_compute. split; reflexivity. Qed.

(** * Further properties of the services *)

(** ** Helper lemmas *)

Lemma fold_max_ge x l : In x l -> x <= fold_right Z.max 0 l.
Proof.
  induction l as [|y l IH]; simpl; [contradiction|].
  intros [<-|H]; [apply Z.le_max_l|].
  specialize (IH H). pose proof (Z.le_max_r y (fold_right Z.max 0 l)). lia.
Qed.

Lemma next_id_fresh l : ~ In (next_id l) l.
Proof.
  intros H. apply fold_max_ge in H. unfold next_id in H. lia.
Qed.

Lemma filter_all {A} (g : A -> bool) l :
  (forall x, In x l -> g x = true) -> filter g l = l.
Proof.
  induction l as [|x l IH]; intros H; simpl; [reflexivity|].
  rewrite (H x (or_introl eq_refl)). f_equal. apply IH.
  intros y Hy. apply H. right. exact Hy.
Qed.

Lemma filter_none {A} (g : A -> bool) l :
  (forall x, In x l -> g x = false) -> filter g l = [].
Proof.
  induction l as [|x l IH]; intros H; simpl; [reflexivity|].
  rewrite (H x (or_introl eq_refl)). apply IH.
  intros y Hy. apply H. right. exact Hy.
Qed.

Lemma singleton_filter_in {A} (g : A -> bool) l x :
  filter g l = [x] -> In x l /\ g x = true.
Proof.
  intros H. assert (Hx : In x (filter g l)) by (rewrite H; left; reflexivity).
  apply filter_In in Hx. exact Hx.
Qed.

Lemma get_transport_congr tid user db db' :
  transports db' = transports db -> carriers db' = carriers db ->
  get_transport_and_validate_user tid user db'
  = get_transport_and_validate_user tid user db.
Proof.
  intros Ht Hc. unfold get_transport_and_validate_user. rewrite Ht, Hc.
  reflexivity.
Qed.

Lemma get_transport_ok_in tid user db t :
  get_transport_and_validate_user tid user db = Ok t ->
  In t (transports db) /\ Transport.id t = tid
  /\ exists c, In c (carriers db) /\ Carrier.id c = Transport.carrier_id t
       /\ Carrier.user_id c = user.
Proof.
  unfold get_transport_and_validate_user.
  destruct (filter (fun t => Transport.id t =? tid) (transports db))
    as [|x [|y l]] eqn:E; simpl; try discriminate.
  apply singleton_filter_in in E. destruct E as [Hin Hid].
  apply Z.eqb_eq in Hid.
  destruct (find (fun c => Carrier.id c =? Transport.carrier_id x) (carriers db))
    as [c|] eqn:F; [|discriminate].
  destruct (negb (Carrier.user_id c =? user)) eqn:U; [discriminate|].
  intros H. inversion H; subst t.
  apply find_some in F. destruct F as [Hc Hcid]. apply Z.eqb_eq in Hcid.
  apply negb_false_iff, Z.eqb_eq in U.
  split; [exact Hin|]. split; [exact Hid|]. exists c. tauto.
Qed.

Lemma add_transport_schedule_ok p user db sch db1 :
  add_transport_schedule_service p user db = Ok (sch, db1) ->
  (exists t, get_transport_and_validate_user (ScheduleCreate.transport_id p) user db
             = Ok t)
  /\ filter (same_times p) (schedules db) = []
  /\ sch = Schedule.mk (next_id (map Schedule.id (schedules db)))
             (ScheduleCreate.start_time p) (ScheduleCreate.end_time p)
             (ScheduleCreate.reason p) (ScheduleCreate.transport_id p)
  /\ db1 = with_schedules db (schedules db ++ [sch]).
Proof.
  unfold add_transport_schedule_service.
  destruct (get_transport_and_validate_user (ScheduleCreate.transport_id p) user db)
    as [t|e] eqn:G; simpl; [|discriminate].
  pose proof (get_transport_ok_id _ _ _ _ G) as Hid.
  destruct (filter (same_times p) (schedules db)) as [|x [|y l]] eqn:F;
    simpl; try discriminate.
  intros H. inversion H; subst. rewrite Hid.
  split; [exists t; reflexivity|]. tauto.
Qed.

Lemma add_schedule_request_ok now user p db sch db1 :
  add_schedule_request now user p db = Ok (sch, db1) ->
  validate_schedule now p = Ok p
  /\ add_transport_schedule_service p user db = Ok (sch, db1).
Proof.
  unfold add_schedule_request.
  destruct (validate_schedule now p) as [q|e] eqn:V; simpl; [|discriminate].
  pose proof (validate_schedule_ok _ _ _ V) as Hq. subst q. tauto.
Qed.

Lemma get_or_create_route_ok a b db r db1 :
  get_or_create_route a b db = Ok (r, db1) ->
  filter (route_matches a b) (routes db1) = [r]
  /\ transports db1 = transports db /\ carriers db1 = carriers db
  /\ transport_routes db1 = transport_routes db
  /\ schedules db1 = schedules db.
Proof.
  unfold get_or_create_route.
  destruct (filter (route_matches a b) (routes db)) as [|x [|y l]] eqn:F;
    simpl; try discriminate.
  - destruct (commit_route _ db) as [db'|e] eqn:C; simpl; [|discriminate].
    apply commit_route_ok in C. intros H. inversion H; subst.
    simpl. rewrite filter_app, F. unfold route_matches at 1. simpl.
    rewrite !Z.eqb_refl. repeat split.
  - intros H. inversion H; subst. repeat split. exact F.
Qed.

Lemma get_or_create_route_found a b db r :
  filter (route_matches a b) (routes db) = [r] ->
  get_or_create_route a b db = Ok (r, db).
Proof. intros F. unfold get_or_create_route. rewrite F. reflexivity. Qed.

Lemma add_route_ok tid a b mn mx user db tr db2 :
  add_route_to_transport_service tid a b mn mx user db = (Ok tr, db2) ->
  exists t route db1,
    get_transport_and_validate_user tid user db = Ok t
    /\ get_or_create_route a b db = Ok (route, db1)
    /\ filter (assignment_matches (Transport.id t) (Route.id route))
         (transport_routes db1) = []
    /\ tr = TransportRoute.mk (next_id (map TransportRoute.id (transport_routes db1)))
              mn mx (Route.id route) (Transport.id t)
    /\ db2 = with_transport_routes db1 (transport_routes db1 ++ [tr]).
Proof.
  unfold add_route_to_transport_service.
  destruct (get_transport_and_validate_user tid user db) as [t|e] eqn:G;
    [|discriminate].
  destruct (get_or_create_route a b db) as [[route db1]|e] eqn:R; [|discriminate].
  fold (assignment_matches (Transport.id t) (Route.id route)).
  destruct (filter (assignment_matches (Transport.id t) (Route.id route))
              (transport_routes db1)) as [|x [|y l]] eqn:F;
    simpl; try discriminate.
  intros H. inversion H; subst. exists t, route, db1. tauto.
Qed.


Lemma not_busy_app db l f v :
  not_busy (with_schedules db (schedules db ++ l)) f v = true ->
  not_busy db f v = true.
Proof.
  rewrite !not_busy_spec. intros Hno (s & Hs & Hid & Hov). apply Hno.
  exists s. split; [simpl; apply in_or_app; left; exact Hs|]. tauto.
Qed.

(** ** Extra properties *)



(** Adding a schedule row (whatever its times) never adds a vehicle to a
    search: every response after the insert was already a response before. *)
Theorem search_shrinks_when_schedule_added (db : DB) (f : TransportFilter.t)
  (s : Schedule.t) :
  incl (search_responses (with_schedules db (schedules db ++ [s])) f)
       (search_responses db f).
Proof.
  intros x Hx. apply in_search_responses in Hx.
  destruct Hx as (t & tr & r & Hj & Hw & ->).
  apply in_search_responses. exists t, tr, r. split; [exact Hj|].
  split; [|reflexivity].
  rewrite where_clause_busy in *. apply andb_true_iff in Hw.
  destruct Hw as [Hw Hb]. rewrite Hw. simpl. eapply not_busy_app. exact Hb.
Qed.

(** A schedule that ends at or before the window's start, or starts at or
    after its end, leaves the search result unchanged, errors included. *)
Theorem search_unchanged_by_disjoint_schedule (db : DB) (f : TransportFilter.t)
  (s : Schedule.t)
  (Hdisj : Schedule.end_time s <= TransportFilter.start_time f
           \/ Schedule.start_time s >= TransportFilter.end_time f) :
  filter_transports_service f (with_schedules db (schedules db ++ [s]))
  = filter_transports_service f db.
Proof.
  assert (Hov : overlaps_window f s = false).
  { unfold overlaps_window. apply negb_false_iff, orb_true_iff.
    rewrite Z.leb_le, Z.geb_le. lia. }
  assert (Hbusy : busy_transports (with_schedules db (schedules db ++ [s])) f
                  = busy_transports db f).
  { unfold busy_transports. simpl. rewrite filter_app. simpl. rewrite Hov.
    rewrite app_nil_r. reflexivity. }
  assert (Hw : where_clause (with_schedules db (schedules db ++ [s])) f
               = where_clause db f).
  { unfold where_clause. rewrite Hbusy. reflexivity. }
  unfold filter_transports_service, ordered_rows, selected_rows.
  rewrite Hw. reflexivity.
Qed.

Lemma search_unchanged_by_disjoint_schedule_witness :
  let s := Schedule.mk 2 t_1200 (t_1200 + 3600) OTHER 1 in
  (Schedule.start_time s >= TransportFilter.end_time (scenario_filter t_1000 t_1200))
  /\ filter_transports_service (scenario_filter t_1000 t_1200)
       (with_schedules scenario_db (schedules scenario_db ++ [s]))
     = filter_transports_service (scenario_filter t_1000 t_1200) scenario_db.
Proof.
  intros s. assert (H : Schedule.start_time s >= TransportFilter.end_time
                          (scenario_filter t_1000 t_1200))
    by (vm_compute; congruence).
  split; [exact H|].
  apply search_unchanged_by_disjoint_schedule. right. exact H.
Defined.

(** Once a schedule request for [start, end) succeeds, a search whose
    window overlaps [start, end) no longer returns that vehicle. *)
Theorem add_schedule_then_search_excludes (now user : Z)
  (p : ScheduleCreate.t) (db db1 : DB) (sch : Schedule.t)
  (f : TransportFilter.t)
  (Hadd : add_schedule_request now user p db = Ok (sch, db1))
  (Hov : ~ (ScheduleCreate.end_time p <= TransportFilter.start_time f
            \/ ScheduleCreate.start_time p >= TransportFilter.end_time f)) :
  ~ In (ScheduleCreate.transport_id p) (search_ids db1 f).
Proof.
  apply add_schedule_request_ok in Hadd. destruct Hadd as [_ Hadd].
  apply add_transport_schedule_ok in Hadd.
  destruct Hadd as (_ & _ & Hsch & Hdb).
  intros Hin. apply in_search_ids in Hin.
  destruct Hin as (t & tr & r & _ & Hw & Hid).
  rewrite where_clause_busy in Hw. apply andb_true_iff in Hw.
  destruct Hw as [_ Hb]. apply not_busy_spec in Hb. apply Hb.
  exists sch. subst db1 sch. simpl. split; [apply in_or_app; right; left; reflexivity|].
  split; [symmetry; exact Hid|]. exact Hov.
Qed.

Lemma add_schedule_then_search_excludes_witness :
  add_schedule_request day_before 7 blackout_10_12 scenario_db
    = Ok (blackout_10_12_row,
          with_schedules scenario_db (schedules scenario_db ++ [blackout_10_12_row]))
  /\ ~ In 1 (search_ids
               (with_schedules scenario_db (schedules scenario_db ++ [blackout_10_12_row]))
               (scenario_filter t_1100 t_1200)).
Proof.
  assert (H : add_schedule_request day_before 7 blackout_10_12 scenario_db
    = Ok (blackout_10_12_row,
          with_schedules scenario_db (schedules scenario_db ++ [blackout_10_12_row])))
    by reflexivity.
  split; [exact H|].
  apply (add_schedule_then_search_excludes _ _ _ _ _ _ _ H).
  unfold blackout_10_12, scenario_filter, t_1100, t_1200, t_1000. simpl. lia.
Defined.

(** A successful ownership check returns the transport with the requested
    id, whose carrier exists and belongs to the requesting user. *)
Theorem get_transport_and_validate_user_owner (transport_id user : Z) (db : DB)
  (t : Transport.t)
  (H : get_transport_and_validate_user transport_id user db = Ok t) :
  In t (transports db) /\ Transport.id t = transport_id
  /\ exists c, In c (carriers db) /\ Carrier.id c = Transport.carrier_id t
       /\ Carrier.user_id c = user.
Proof. exact (get_transport_ok_in _ _ _ _ H). Qed.

Lemma get_transport_and_validate_user_owner_witness :
  get_transport_and_validate_user 1 7 scenario_db = Ok (mk_transport 1 5 true)
  /\ In (mk_transport 1 5 true) (transports scenario_db).
Proof.
  assert (H : get_transport_and_validate_user 1 7 scenario_db
              = Ok (mk_transport 1 5 true)) by reflexivity.
  split; [exact H|]. exact (proj1 (get_transport_and_validate_user_owner _ _ _ _ H)).
Defined.

Lemma in_transport_with_routes v db t tr :
  In (t, tr) (transport_with_routes v db) <->
  In t (transports db) /\ Transport.id t = v
  /\ In tr (transport_routes db) /\ TransportRoute.transport_id tr = v.
Proof.
  unfold transport_with_routes. rewrite in_flat_map. split.
  - intros [t' [Ht' Hx]].
    destruct (Transport.id t' =? v) eqn:Ev; [|contradiction].
    apply in_map_iff in Hx. destruct Hx as [tr' [Heq Htr']].
    inversion Heq; subst t' tr'.
    apply filter_In in Htr'. destruct Htr' as [Htr' Hid].
    apply Z.eqb_eq in Ev. apply Z.eqb_eq in Hid. repeat split; congruence.
  - intros (Ht & Hid & Htr & Htid). exists t. split; [exact Ht|].
    rewrite Hid, Z.eqb_refl. apply in_map_iff. exists tr. split; [reflexivity|].
    apply filter_In. split; [exact Htr|]. apply Z.eqb_eq. congruence.
Qed.

Lemma add_route_store tid a b mn mx user db tr db2 :
  add_route_to_transport_service tid a b mn mx user db = (Ok tr, db2) ->
  exists t route,
    get_transport_and_validate_user tid user db = Ok t
    /\ Transport.id t = tid
    /\ TransportRoute.transport_id tr = tid
    /\ Route.id route = TransportRoute.route_id tr
    /\ filter (route_matches a b) (routes db2) = [route]
    /\ transports db2 = transports db /\ carriers db2 = carriers db
    /\ schedules db2 = schedules db
    /\ transport_routes db2 = (transport_routes db ++ [tr])%list
    /\ filter (assignment_matches tid (TransportRoute.route_id tr))
         (transport_routes db) = []
    /\ ~ In (TransportRoute.id tr) (map TransportRoute.id (transport_routes db)).
Proof.
  intros H. apply add_route_ok in H.
  destruct H as (t & route & db1 & G & R & F & Htr & Hdb).
  pose proof (get_transport_ok_id _ _ _ _ G) as Hid.
  apply get_or_create_route_ok in R.
  destruct R as (Rf & Rt & Rc & Rtr & Rs).
  exists t, route. subst db2 tr tid. simpl.
  rewrite <- Rt, <- Rc, <- Rs, <- Rtr. repeat split; try assumption.
  apply next_id_fresh.
Qed.

(** A successful [add_transport_schedule_service] appends exactly one
    schedule row, built from the payload, under an id no earlier schedule
    has, and leaves every other table unchanged. *)
Theorem add_transport_schedule_appends (p : ScheduleCreate.t) (user : Z)
  (db db1 : DB) (sch : Schedule.t)
  (H : add_transport_schedule_service p user db = Ok (sch, db1)) :
  schedules db1 = (schedules db ++ [sch])%list
  /\ Schedule.start_time sch = ScheduleCreate.start_time p
  /\ Schedule.end_time sch = ScheduleCreate.end_time p
  /\ Schedule.reason sch = ScheduleCreate.reason p
  /\ Schedule.id_transport sch = ScheduleCreate.transport_id p
  /\ ~ In (Schedule.id sch) (map Schedule.id (schedules db))
  /\ cities db1 = cities db /\ carriers db1 = carriers db
  /\ transports db1 = transports db /\ routes db1 = routes db
  /\ transport_routes db1 = transport_routes db.
Proof.
  apply add_transport_schedule_ok in H. destruct H as (_ & _ & -> & ->).
  simpl. repeat split. apply next_id_fresh.
Qed.

Lemma add_transport_schedule_appends_witness :
  add_transport_schedule_service blackout_10_12 7 scenario_db
    = Ok (blackout_10_12_row,
          with_schedules scenario_db (schedules scenario_db ++ [blackout_10_12_row]))
  /\ ~ In (Schedule.id blackout_10_12_row) (map Schedule.id (schedules scenario_db)).
Proof.
  assert (H : add_transport_schedule_service blackout_10_12 7 scenario_db
    = Ok (blackout_10_12_row,
          with_schedules scenario_db (schedules scenario_db ++ [blackout_10_12_row])))
    by reflexivity.
  split; [exact H|]. apply (add_transport_schedule_appends _ _ _ _ _ H).
Defined.

(** [get_transport_by_id_service] succeeds exactly when the store has a
    transport with the id and an assignment of it to a route; the answer is
    then that transport's row joined with one of its assignments.
    Otherwise it fails with [404 "Transport not found"]. *)
Theorem get_transport_by_id_result (transport_id : Z) (db : DB) :
  match get_transport_by_id_service transport_id db with
  | Ok x => exists t tr, In t (transports db) /\ Transport.id t = transport_id
              /\ In tr (transport_routes db)
              /\ TransportRoute.transport_id tr = transport_id
              /\ x = to_response t tr
  | Err e => e = transport_not_found
             /\ forall t tr, In t (transports db) -> Transport.id t = transport_id ->
                  In tr (transport_routes db) ->
                  TransportRoute.transport_id tr <> transport_id
  end.
Proof.
  unfold get_transport_by_id_service.
  destruct (transport_with_routes transport_id db) as [|[t tr] l] eqn:E; simpl.
  - split; [reflexivity|]. intros t tr Ht Hid Htr Htid.
    assert (Hin : In (t, tr) (transport_with_routes transport_id db))
      by (apply in_transport_with_routes; tauto).
    rewrite E in Hin. contradiction.
  - assert (Hin : In (t, tr) (transport_with_routes transport_id db))
      by (rewrite E; left; reflexivity).
    apply in_transport_with_routes in Hin. exists t, tr. tauto.
Qed.

(** [add_route_to_transport_service] does not check the price band: if the
    assignment succeeds with one band it succeeds with any other, including
    one whose minimum exceeds its maximum, and stores that band. *)
Theorem add_route_band_unchecked (tid a b mn mx user : Z) (db db2 : DB)
  (tr : TransportRoute.t)
  (H : add_route_to_transport_service tid a b mn mx user db = (Ok tr, db2))
  (mn' mx' : Z) :
  exists db2',
    add_route_to_transport_service tid a b mn' mx' user db
      = (Ok (TransportRoute.mk (TransportRoute.id tr) mn' mx'
               (TransportRoute.route_id tr) (TransportRoute.transport_id tr)), db2')
    /\ In (TransportRoute.mk (TransportRoute.id tr) mn' mx'
             (TransportRoute.route_id tr) (TransportRoute.transport_id tr))
          (transport_routes db2').
Proof.
  apply add_route_ok in H.
  destruct H as (t & route & db1 & G & R & F & -> & _).
  eexists. split.
  - unfold add_route_to_transport_service. rewrite G, R.
    fold (assignment_matches (Transport.id t) (Route.id route)). rewrite F.
    simpl. reflexivity.
  - simpl. apply in_or_app. right. left. reflexivity.
Qed.

Lemma add_route_band_unchecked_witness :
  add_route_to_transport_service 1 1 2 100 300 7 (route_db true)
    = (Ok (TransportRoute.mk 1 100 300 1 1),
       mkDB [City.mk 1; City.mk 2] [Carrier.mk 1 7] [mk_transport 1 5 true]
         [Route.mk 1 1 2] [TransportRoute.mk 1 100 300 1 1] [] true)
  /\ exists db2',
       add_route_to_transport_service 1 1 2 500 100 7 (route_db true)
         = (Ok (TransportRoute.mk 1 500 100 1 1), db2')
       /\ In (TransportRoute.mk 1 500 100 1 1) (transport_routes db2').
Proof.
  assert (H : add_route_to_transport_service 1 1 2 100 300 7 (route_db true)
    = (Ok (TransportRoute.mk 1 100 300 1 1),
       mkDB [City.mk 1; City.mk 2] [Carrier.mk 1 7] [mk_transport 1 5 true]
         [Route.mk 1 1 2] [TransportRoute.mk 1 100 300 1 1] [] true))
    by reflexivity.
  split; [exact H|]. exact (add_route_band_unchecked _ _ _ _ _ _ _ _ _ H 500 100).
Defined.

Lemma assignment_matches_self tr :
  assignment_matches (TransportRoute.transport_id tr) (TransportRoute.route_id tr) tr
  = true.
Proof. unfold assignment_matches. rewrite !Z.eqb_refl. reflexivity. Qed.

Lemma filter_fresh_id trs tr :
  ~ In (TransportRoute.id tr) (map TransportRoute.id trs) ->
  filter (fun x => negb (TransportRoute.id x =? TransportRoute.id tr))
    (trs ++ [tr])%list = trs.
Proof.
  intros Hf. rewrite filter_app. simpl. rewrite Z.eqb_refl. simpl.
  rewrite app_nil_r. apply filter_all. intros x Hx.
  apply negb_true_iff, Z.eqb_neq. intros He. apply Hf. rewrite <- He.
  apply in_map. exact Hx.
Qed.

(** Assigning a transport to a route it already serves is refused with
    [400 "This route is already assigned to the transport"] and leaves the
    store as it is, whatever band the second request carries. *)
Theorem add_route_repeat_rejected (tid a b mn mx mn' mx' user : Z) (db db2 : DB)
  (tr : TransportRoute.t)
  (H : add_route_to_transport_service tid a b mn mx user db = (Ok tr, db2)) :
  add_route_to_transport_service tid a b mn' mx' user db2
  = (Err route_assigned_exc, db2).
Proof.
  apply add_route_store in H.
  destruct H as (t & route & G & Hid & Htid & Hrid & Rf & Ht & Hc & _ & Htrs & Hnil & _).
  unfold add_route_to_transport_service.
  rewrite (get_transport_congr tid user db db2 Ht Hc), G.
  rewrite (get_or_create_route_found _ _ _ _ Rf).
  fold (assignment_matches (Transport.id t) (Route.id route)).
  rewrite Hid, Hrid, Htrs, filter_app, Hnil. cbn [filter app].
  rewrite <- Htid, assignment_matches_self. reflexivity.
Qed.

Lemma add_route_repeat_rejected_witness :
  add_route_to_transport_service 1 1 2 100 300 7 (route_db true)
    = (Ok (TransportRoute.mk 1 100 300 1 1),
       mkDB [City.mk 1; City.mk 2] [Carrier.mk 1 7] [mk_transport 1 5 true]
         [Route.mk 1 1 2] [TransportRoute.mk 1 100 300 1 1] [] true)
  /\ add_route_to_transport_service 1 1 2 50 80 7
       (mkDB [City.mk 1; City.mk 2] [Carrier.mk 1 7] [mk_transport 1 5 true]
          [Route.mk 1 1 2] [TransportRoute.mk 1 100 300 1 1] [] true)
     = (Err route_assigned_exc,
        mkDB [City.mk 1; City.mk 2] [Carrier.mk 1 7] [mk_transport 1 5 true]
          [Route.mk 1 1 2] [TransportRoute.mk 1 100 300 1 1] [] true).
Proof.
  assert (H : add_route_to_transport_service 1 1 2 100 300 7 (route_db true)
    = (Ok (TransportRoute.mk 1 100 300 1 1),
       mkDB [City.mk 1; City.mk 2] [Carrier.mk 1 7] [mk_transport 1 5 true]
         [Route.mk 1 1 2] [TransportRoute.mk 1 100 300 1 1] [] true))
    by reflexivity.
  split; [exact H|]. exact (add_route_repeat_rejected _ _ _ _ _ _ _ _ _ _ _ H).
Defined.

(** After a successful route assignment the transport can be fetched:
    [get_transport_by_id_service] answers with a transport of that id. *)
Theorem add_route_then_get_by_id (tid a b mn mx user : Z) (db db2 : DB)
  (tr : TransportRoute.t)
  (H : add_route_to_transport_service tid a b mn mx user db = (Ok tr, db2)) :
  exists x, get_transport_by_id_service tid db2 = Ok x
            /\ TransportFilterResponse.id x = tid.
Proof.
  apply add_route_store in H.
  destruct H as (t & route & G & Hid & Htid & _ & _ & Ht & _ & _ & Htrs & _).
  apply get_transport_ok_in in G. destruct G as [Hin _].
  assert (Hj : In (t, tr) (transport_with_routes tid db2)).
  { apply in_transport_with_routes. rewrite Ht, Htrs.
    repeat split; try assumption. apply in_or_app. right. left. reflexivity. }
  unfold get_transport_by_id_service.
  destruct (transport_with_routes tid db2) as [|[t' tr'] l] eqn:E;
    [contradiction|].
  assert (Hj' : In (t', tr') (transport_with_routes tid db2))
    by (rewrite E; left; reflexivity).
  apply in_transport_with_routes in Hj'.
  exists (to_response t' tr'). split; [reflexivity|]. simpl. tauto.
Qed.

Lemma add_route_then_get_by_id_witness :
  add_route_to_transport_service 1 1 2 100 300 7 (route_db true)
    = (Ok (TransportRoute.mk 1 100 300 1 1),
       mkDB [City.mk 1; City.mk 2] [Carrier.mk 1 7] [mk_transport 1 5 true]
         [Route.mk 1 1 2] [TransportRoute.mk 1 100 300 1 1] [] true)
  /\ get_transport_by_id_service 1 (route_db true) = Err transport_not_found
  /\ exists x, get_transport_by_id_service 1
       (mkDB [City.mk 1; City.mk 2] [Carrier.mk 1 7] [mk_transport 1 5 true]
          [Route.mk 1 1 2] [TransportRoute.mk 1 100 300 1 1] [] true) = Ok x
     /\ TransportFilterResponse.id x = 1.
Proof.
  assert (H : add_route_to_transport_service 1 1 2 100 300 7 (route_db true)
    = (Ok (TransportRoute.mk 1 100 300 1 1),
       mkDB [City.mk 1; City.mk 2] [Carrier.mk 1 7] [mk_transport 1 5 true]
         [Route.mk 1 1 2] [TransportRoute.mk 1 100 300 1 1] [] true))
    by reflexivity.
  split; [exact H|]. split; [reflexivity|].
  exact (add_route_then_get_by_id _ _ _ _ _ _ _ _ _ H).
Defined.

(** Assigning a route and then deleting that assignment restores the
    assignment table; the route row created on the way stays. *)
Theorem add_route_then_delete_restores (tid a b mn mx user : Z) (db db2 : DB)
  (tr : TransportRoute.t)
  (H : add_route_to_transport_service tid a b mn mx user db = (Ok tr, db2)) :
  exists db3,
    delete_transport_route_service tid (TransportRoute.route_id tr) user db2
      = Ok (("Route successfully deleted", TransportRoute.route_id tr), db3)
    /\ transport_routes db3 = transport_routes db
    /\ routes db3 = routes db2
    /\ transports db3 = transports db
    /\ schedules db3 = schedules db.
Proof.
  apply add_route_store in H.
  destruct H as (t & route & G & Hid & Htid & Hrid & _ & Ht & Hc & Hs & Htrs & Hnil & Hf).
  unfold delete_transport_route_service.
  rewrite (get_transport_congr tid user db db2 Ht Hc), G. simpl.
  fold (assignment_matches (Transport.id t) (TransportRoute.route_id tr)).
  rewrite Hid, Htrs, filter_app, Hnil. cbn [filter app].
  rewrite <- Htid, assignment_matches_self. simpl.
  eexists. split; [reflexivity|]. simpl.
  rewrite filter_fresh_id by exact Hf. tauto.
Qed.

Lemma add_route_then_delete_restores_witness :
  add_route_to_transport_service 1 1 2 100 300 7 (route_db true)
    = (Ok (TransportRoute.mk 1 100 300 1 1),
       mkDB [City.mk 1; City.mk 2] [Carrier.mk 1 7] [mk_transport 1 5 true]
         [Route.mk 1 1 2] [TransportRoute.mk 1 100 300 1 1] [] true)
  /\ exists db3,
       delete_transport_route_service 1 1 7
         (mkDB [City.mk 1; City.mk 2] [Carrier.mk 1 7] [mk_transport 1 5 true]
            [Route.mk 1 1 2] [TransportRoute.mk 1 100 300 1 1] [] true)
         = Ok (("Route successfully deleted", 1), db3)
       /\ transport_routes db3 = [] /\ routes db3 = [Route.mk 1 1 2]
       /\ transports db3 = [mk_transport 1 5 true] /\ schedules db3 = [].
Proof.
  assert (H : add_route_to_transport_service 1 1 2 100 300 7 (route_db true)
    = (Ok (TransportRoute.mk 1 100 300 1 1),
       mkDB [City.mk 1; City.mk 2] [Carrier.mk 1 7] [mk_transport 1 5 true]
         [Route.mk 1 1 2] [TransportRoute.mk 1 100 300 1 1] [] true))
    by reflexivity.
  split; [exact H|]. exact (add_route_then_delete_restores _ _ _ _ _ _ _ _ _ H).
Defined.

Lemma get_transport_with_transport_routes tid user db l :
  get_transport_and_validate_user tid user (with_transport_routes db l)
  = get_transport_and_validate_user tid user db.
Proof. reflexivity. Qed.

Lemma schedules_with db l : schedules (with_schedules db l) = l.
Proof. reflexivity. Qed.

Lemma schedule_filter_fresh l s :
  ~ In (Schedule.id s) (map Schedule.id l) ->
  filter (fun s' => Schedule.id s' =? Schedule.id s) (l ++ [s])%list = [s]
  /\ filter (fun s' => negb (Schedule.id s' =? Schedule.id s)) (l ++ [s])%list = l.
Proof.
  intros Hf. rewrite !filter_app. simpl. rewrite Z.eqb_refl. simpl. split.
  - rewrite filter_none; [reflexivity|]. intros x Hx. apply Z.eqb_neq.
    intros He. apply Hf. rewrite <- He. apply in_map. exact Hx.
  - rewrite app_nil_r. apply filter_all. intros x Hx.
    apply negb_true_iff, Z.eqb_neq. intros He. apply Hf. rewrite <- He.
    apply in_map. exact Hx.
Qed.

(** Deleting a route assignment twice: the second request finds nothing and
    fails with [404 "Route not found for this transport"]. *)
Theorem delete_route_twice_not_found (tid rid user : Z) (db db2 : DB)
  (m : string * Z)
  (H : delete_transport_route_service tid rid user db = Ok (m, db2)) :
  delete_transport_route_service tid rid user db2 = Err route_not_found_exc.
Proof.
  unfold delete_transport_route_service in H.
  destruct (get_transport_and_validate_user tid user db) as [t|e] eqn:G;
    [|discriminate].
  simpl in H. fold (assignment_matches (Transport.id t) rid) in H.
  destruct (filter (assignment_matches (Transport.id t) rid) (transport_routes db))
    as [|x [|y l]] eqn:F; simpl in H; try discriminate.
  inversion H; subst db2 m. clear H.
  unfold delete_transport_route_service.
  rewrite get_transport_with_transport_routes, G. simpl.
  fold (assignment_matches (Transport.id t) rid).
  rewrite filter_none; [reflexivity|].
  intros y Hy. apply filter_In in Hy. destruct Hy as [Hy Hne].
  destruct (assignment_matches (Transport.id t) rid y) eqn:Hm; [|reflexivity].
  exfalso. assert (Hin : In y [x]) by (rewrite <- F; apply filter_In; tauto).
  destruct Hin as [<-|[]]. rewrite Z.eqb_refl in Hne. discriminate.
Qed.

Lemma delete_route_twice_not_found_witness :
  delete_transport_route_service 1 1 7 scenario_db
    = Ok (("Route successfully deleted", 1), with_transport_routes scenario_db [])
  /\ delete_transport_route_service 1 1 7 (with_transport_routes scenario_db [])
     = Err route_not_found_exc.
Proof.
  assert (H : delete_transport_route_service 1 1 7 scenario_db
    = Ok (("Route successfully deleted", 1), with_transport_routes scenario_db []))
    by reflexivity.
  split; [exact H|]. exact (delete_route_twice_not_found _ _ _ _ _ _ H).
Defined.

(** After a successful route assignment, listing the transport's routes
    succeeds and includes the new assignment; every listed assignment
    belongs to that transport. *)
Theorem add_route_then_listed (tid a b mn mx user : Z) (db db2 : DB)
  (tr : TransportRoute.t)
  (H : add_route_to_transport_service tid a b mn mx user db = (Ok tr, db2)) :
  exists l, get_transport_routes_service tid user db2 = Ok l /\ In tr l
    /\ forall y, In y l -> TransportRoute.transport_id y = tid.
Proof.
  apply add_route_store in H.
  destruct H as (t & route & G & Hid & Htid & _ & _ & Ht & Hc & _ & Htrs & _).
  unfold get_transport_routes_service.
  rewrite (get_transport_congr tid user db db2 Ht Hc), G. simpl.
  assert (Hin : In tr (filter (fun y => TransportRoute.transport_id y =? Transport.id t)
                         (transport_routes db2))).
  { apply filter_In. rewrite Htrs. split; [apply in_or_app; right; left; reflexivity|].
    apply Z.eqb_eq. congruence. }
  assert (Hall : forall y, In y (filter (fun y => TransportRoute.transport_id y =? Transport.id t)
                                  (transport_routes db2)) ->
                 TransportRoute.transport_id y = tid).
  { intros y Hy. apply filter_In in Hy. destruct Hy as [_ Hy].
    apply Z.eqb_eq in Hy. congruence. }
  destruct (filter (fun y => TransportRoute.transport_id y =? Transport.id t)
              (transport_routes db2)) as [|x l]; [contradiction|].
  exists (x :: l). tauto.
Qed.

Lemma add_route_then_listed_witness :
  add_route_to_transport_service 1 1 2 100 300 7 (route_db true)
    = (Ok (TransportRoute.mk 1 100 300 1 1),
       mkDB [City.mk 1; City.mk 2] [Carrier.mk 1 7] [mk_transport 1 5 true]
         [Route.mk 1 1 2] [TransportRoute.mk 1 100 300 1 1] [] true)
  /\ get_transport_routes_service 1 7 (route_db true) = Err no_routes_exc
  /\ exists l, get_transport_routes_service 1 7
       (mkDB [City.mk 1; City.mk 2] [Carrier.mk 1 7] [mk_transport 1 5 true]
          [Route.mk 1 1 2] [TransportRoute.mk 1 100 300 1 1] [] true) = Ok l
     /\ In (TransportRoute.mk 1 100 300 1 1) l
     /\ forall y, In y l -> TransportRoute.transport_id y = 1.
Proof.
  assert (H : add_route_to_transport_service 1 1 2 100 300 7 (route_db true)
    = (Ok (TransportRoute.mk 1 100 300 1 1),
       mkDB [City.mk 1; City.mk 2] [Carrier.mk 1 7] [mk_transport 1 5 true]
         [Route.mk 1 1 2] [TransportRoute.mk 1 100 300 1 1] [] true))
    by reflexivity.
  split; [exact H|]. split; [reflexivity|].
  exact (add_route_then_listed _ _ _ _ _ _ _ _ _ H).
Defined.

(** Adding a schedule and then deleting it by the id it was given restores
    the schedule table; no other table changes on the way. *)
Theorem add_schedule_then_delete_restores (p : ScheduleCreate.t) (user : Z)
  (db db1 : DB) (sch : Schedule.t)
  (H : add_transport_schedule_service p user db = Ok (sch, db1)) :
  exists db2,
    delete_transport_schedules_service (Schedule.id sch) user db1
      = Ok (("Schedule successfully deleted", Schedule.id sch), db2)
    /\ schedules db2 = schedules db
    /\ transports db2 = transports db /\ routes db2 = routes db
    /\ transport_routes db2 = transport_routes db.
Proof.
  apply add_transport_schedule_ok in H.
  destruct H as ([t G] & _ & Hsch & ->).
  assert (Hf : ~ In (Schedule.id sch) (map Schedule.id (schedules db)))
    by (subst sch; apply next_id_fresh).
  assert (Hidt : Schedule.id_transport sch = ScheduleCreate.transport_id p)
    by (subst sch; reflexivity).
  destruct (schedule_filter_fresh _ _ Hf) as [Hone Hrest].
  unfold delete_transport_schedules_service.
  rewrite schedules_with, Hone. cbn [bind scalar_one_or_none].
  rewrite get_transport_with_schedules, Hidt, G. cbn [bind].
  eexists. split; [reflexivity|].
  rewrite schedules_with, Hrest. repeat split.
Qed.

Lemma add_schedule_then_delete_restores_witness :
  add_transport_schedule_service blackout_10_12 7 scenario_db
    = Ok (blackout_10_12_row,
          with_schedules scenario_db (schedules scenario_db ++ [blackout_10_12_row]))
  /\ exists db2,
       delete_transport_schedules_service 2 7
         (with_schedules scenario_db (schedules scenario_db ++ [blackout_10_12_row]))
         = Ok (("Schedule successfully deleted", 2), db2)
       /\ schedules db2 = schedules scenario_db
       /\ transports db2 = transports scenario_db /\ routes db2 = routes scenario_db
       /\ transport_routes db2 = transport_routes scenario_db.
Proof.
  assert (H : add_transport_schedule_service blackout_10_12 7 scenario_db
    = Ok (blackout_10_12_row,
          with_schedules scenario_db (schedules scenario_db ++ [blackout_10_12_row])))
    by reflexivity.
  split; [exact H|]. exact (add_schedule_then_delete_restores _ _ _ _ _ H).
Defined.

(** Deleting a schedule twice: the second request finds no row with that
    id and fails with [404 "Schedule not found"]. *)
Theorem delete_schedule_twice_not_found (sid user : Z) (db db2 : DB)
  (m : string * Z)
  (H : delete_transport_schedules_service sid user db = Ok (m, db2)) :
  delete_transport_schedules_service sid user db2 = Err schedule_not_found_exc.
Proof.
  unfold delete_transport_schedules_service in H.
  destruct (filter (fun s => Schedule.id s =? sid) (schedules db))
    as [|x [|y l]] eqn:F; simpl in H; try discriminate.
  destruct (get_transport_and_validate_user (Schedule.id_transport x) user db);
    simpl in H; [|discriminate].
  inversion H; subst db2 m. clear H.
  apply singleton_filter_in in F. destruct F as [_ Hx]. apply Z.eqb_eq in Hx.
  unfold delete_transport_schedules_service. rewrite schedules_with.
  rewrite filter_none; [reflexivity|].
  intros y Hy. apply filter_In in Hy. destruct Hy as [_ Hne].
  apply negb_true_iff, Z.eqb_neq in Hne. apply Z.eqb_neq. congruence.
Qed.

Lemma delete_schedule_twice_not_found_witness :
  delete_transport_schedules_service 1 7 scenario_db
    = Ok (("Schedule successfully deleted", 1), with_schedules scenario_db [])
  /\ delete_transport_schedules_service 1 7 (with_schedules scenario_db [])
     = Err schedule_not_found_exc.
Proof.
  assert (H : delete_transport_schedules_service 1 7 scenario_db
    = Ok (("Schedule successfully deleted", 1), with_schedules scenario_db []))
    by reflexivity.
  split; [exact H|]. exact (delete_schedule_twice_not_found _ _ _ _ _ H).
Defined.

(** After a schedule is added, listing the transport's schedules succeeds
    and includes the new row; every listed schedule belongs to that
    transport. *)
Theorem add_schedule_then_listed (p : ScheduleCreate.t) (user : Z)
  (db db1 : DB) (sch : Schedule.t)
  (H : add_transport_schedule_service p user db = Ok (sch, db1)) :
  exists l,
    get_transport_schedules_service (ScheduleCreate.transport_id p) user db1 = Ok l
    /\ In sch l
    /\ forall y, In y l -> Schedule.id_transport y = ScheduleCreate.transport_id p.
Proof.
  apply add_transport_schedule_ok in H.
  destruct H as ([t G] & _ & Hsch & ->).
  pose proof (get_transport_ok_id _ _ _ _ G) as Hid.
  unfold get_transport_schedules_service.
  rewrite get_transport_with_schedules, G. simpl.
  assert (Hin : In sch (filter (fun s => Schedule.id_transport s =? Transport.id t)
                          (schedules db ++ [sch]))).
  { apply filter_In. split; [apply in_or_app; right; left; reflexivity|].
    subst sch. simpl. apply Z.eqb_eq. congruence. }
  assert (Hall : forall y, In y (filter (fun s => Schedule.id_transport s =? Transport.id t)
                                  (schedules db ++ [sch])) ->
                 Schedule.id_transport y = ScheduleCreate.transport_id p).
  { intros y Hy. apply filter_In in Hy. destruct Hy as [_ Hy].
    apply Z.eqb_eq in Hy. congruence. }
  destruct (filter (fun s => Schedule.id_transport s =? Transport.id t)
              (schedules db ++ [sch])) as [|x l]; [contradiction|].
  exists (x :: l). tauto.
Qed.

Lemma add_schedule_then_listed_witness :
  add_transport_schedule_service blackout_10_12 7 scenario_db
    = Ok (blackout_10_12_row,
          with_schedules scenario_db (schedules scenario_db ++ [blackout_10_12_row]))
  /\ exists l,
       get_transport_schedules_service 1 7
         (with_schedules scenario_db (schedules scenario_db ++ [blackout_10_12_row]))
         = Ok l
       /\ In blackout_10_12_row l
       /\ forall y, In y l -> Schedule.id_transport y = 1.
Proof.
  assert (H : add_transport_schedule_service blackout_10_12 7 scenario_db
    = Ok (blackout_10_12_row,
          with_schedules scenario_db (schedules scenario_db ++ [blackout_10_12_row])))
    by reflexivity.
  split; [exact H|]. exact (add_schedule_then_listed _ _ _ _ _ H).
Defined.

(** When the ownership check for a transport fails (unknown transport,
    dangling carrier, another user's vehicle), every service that goes
    through it fails with the same error and changes nothing: adding a
    schedule, assigning a route (the store is returned as it was),
    deleting an assignment, listing routes or schedules, and deleting one
    of its schedules. *)
Theorem ownership_failure_blocks_services (tid user : Z) (db : DB) (e : exc)
  (H : get_transport_and_validate_user tid user db = Err e) :
  (forall p, ScheduleCreate.transport_id p = tid ->
     add_transport_schedule_service p user db = Err e)
  /\ (forall a b mn mx,
        add_route_to_transport_service tid a b mn mx user db = (Err e, db))
  /\ (forall rid, delete_transport_route_service tid rid user db = Err e)
  /\ get_transport_routes_service tid user db = Err e
  /\ get_transport_schedules_service tid user db = Err e
  /\ (forall s, filter (fun s' => Schedule.id s' =? Schedule.id s) (schedules db) = [s] ->
        Schedule.id_transport s = tid ->
        delete_transport_schedules_service (Schedule.id s) user db = Err e).
Proof.
  repeat split.
  - intros p Hp. unfold add_transport_schedule_service. rewrite Hp, H. reflexivity.
  - intros a b mn mx. unfold add_route_to_transport_service. rewrite H. reflexivity.
  - intros rid. unfold delete_transport_route_service. rewrite H. reflexivity.
  - unfold get_transport_routes_service. rewrite H. reflexivity.
  - unfold get_transport_schedules_service. rewrite H. reflexivity.
  - intros s F Hs. unfold delete_transport_schedules_service. rewrite F.
    cbn [bind scalar_one_or_none]. rewrite Hs, H. reflexivity.
Qed.

Lemma ownership_failure_blocks_services_witness :
  get_transport_and_validate_user 1 8 scenario_db
    = Err (HTTPException 403 "Access denied")
  /\ add_route_to_transport_service 1 2 1 100 300 8 scenario_db
     = (Err (HTTPException 403 "Access denied"), scenario_db)
  /\ get_transport_schedules_service 1 8 scenario_db
     = Err (HTTPException 403 "Access denied").
Proof.
  assert (H : get_transport_and_validate_user 1 8 scenario_db
              = Err (HTTPException 403 "Access denied")) by reflexivity.
  destruct (ownership_failure_blocks_services _ _ _ _ H)
    as (_ & Hr & _ & _ & Hs & _).
  split; [exact H|]. split; [apply Hr | exact Hs].
Defined.



